(** * The PANOPTES observatory controller (panoptes/observatory.py)

    A shallow embedding of the [Observatory] class: the instance is a record,
    every method is a function in a small monad that threads the instance,
    returns a value or a raised exception, and collects the calls the method
    makes on its collaborators (mount, camera, weather station, scheduler,
    loggers, clock, heartbeat file).

    The class body never assigns [self.camera], [self.weather],
    [self.scheduler], [self.debug] or [self.heartbeat_filename], and never
    defines [time_to_start]; every handler uses them.  The embedding takes the
    instance with these collaborators attached, as the handlers do, and keeps
    what they answer as parameters of the world.

    Python facts the embedding keeps:
    - a name that is neither local nor bound in the module namespace raises
      [NameError] when it is read;
    - a bare [except:] catches every exception, [NameError] included;
    - assigning [self.is_dark = ...] creates an instance attribute that hides
      the method of the same name;
    - [a and b] evaluates [a] first and [b] only if [a] is true. *)

From stdpp Require Import base strings gmap list.
From Stdlib Require Import ZArith QArith.

Open Scope string_scope.

(** ** Collaborators and what a method can do to them *)

(** Calls on the subsystem adapters.  The last nine are the status polls of
    [query_conditions]. *)
Inductive Command : Type :=
  | CameraConnect
  | CameraDisconnect
  | CameraSetCooling (on : bool)
  | CameraCancelExposure
  | CameraTakeImage (test_image : bool)
  | MountConnect
  | MountDisconnect
  | MountSetTrackingRate (ra dec : Z)
  | MountCancelSlew
  | MountSlewTo
  | MountPark
  | SchedulerGetTarget
  | WeatherCheckConditions
  | CameraIsConnected
  | CameraIsCooling
  | CameraIsCooled
  | CameraIsExposing
  | MountIsConnected
  | MountIsTracking
  | MountIsSlewing
  | MountIsParked.

Inductive Level : Type := DEBUG | INFO | WARNING | CRITICAL.

Inductive FileOp : Type := OpenForWriting | WriteLine | Close.

(** What one invocation leaves behind, in program order. *)
Inductive Event : Type :=
  | Call (c : Command)                  (* a call on mount, camera, weather, scheduler *)
  | Log (l : Level) (msg : string)      (* self.logger.<level>(msg) *)
  | DebugInfo (msg : string)            (* self.debug.info(msg) *)
  | Sleep (seconds : Z)                 (* time.sleep(seconds) *)
  | ClockRead                           (* ephem.now() or datetime.datetime.now() *)
  | SunCompute                          (* self.sun.compute(self.site) *)
  | File (op : FileOp).                 (* the heartbeat file *)

Inductive Exn : Type :=
  | NameError (name : string)
  | TypeError (msg : string)
  | KeyError (key : string)
  | AttributeError (attr : string)
  | CommandFailure (c : Command)
  | IOError (op : FileOp).

(** ** The instance *)

Record Camera := mkCamera {
  cam_connected : bool;
  cam_cooling : bool;
  cam_cooled : bool;
  cam_exposing : bool }.

Record Mount := mkMount {
  mnt_connected : bool;
  mnt_tracking : bool;
  mnt_slewing : bool;
  mnt_parked : bool }.

(** Modelled from the spec: the class of the scheduler's target is not part of
    the source, which only reads [name] and [test_image_taken]; the other
    fields are those of the specification's Target record. *)
Record Target := mkTarget {
  name : string;
  min_images : Z;
  images_taken : Z;
  test_image_taken : bool;
  completed : bool;
  astrometry_solved : bool;
  analysis_attempted : bool;
  analysis_in_progress : bool }.

(** The ten bound methods stored in [self.states]. *)
Inductive Handler : Type :=
  | WhileShutdown
  | WhileSleeping
  | WhileGettingReady
  | WhileScheduling
  | WhileSlewing
  | WhileTakingTestImage
  | WhileAnalyzing
  | WhileImaging
  | WhileParking
  | WhileParked.

(** What the attribute [is_dark] of the instance holds: the method of the
    class, the boolean that the method's body stores under the same name, or a
    callable that a caller attached to the instance (it returns [answer] and
    touches nothing). *)
Inductive DarkAttr : Type :=
  | DarkMethod
  | DarkValue (b : bool)
  | DarkCallable (answer : bool).

(** The heartbeat file: the lines on disk, the lines written but not yet
    flushed, and whether a handle is open. *)
Record MarkerFile := mkMarkerFile {
  on_disk : list Z;
  buffered : list Z;
  is_open : bool }.

Record Observatory := mkObservatory {
  current_state : string;
  states : gmap string Handler;
  is_dark_attr : DarkAttr;
  camera : Camera;
  mount : Mount;
  weather_safe : bool;
  scheduler_target : option Target;
  site_date : Z;
  sun_alt : option Q;
  clock_reads : nat;
  heartbeat_file : MarkerFile }.

(** The state-method mapper built by [__init__]. *)
Definition state_methods : gmap string Handler :=
  <["shutdown" := WhileShutdown]>
  (<["sleeping" := WhileSleeping]>
  (<["getting ready" := WhileGettingReady]>
  (<["scheduling" := WhileScheduling]>
  (<["slewing" := WhileSlewing]>
  (<["taking test image" := WhileTakingTestImage]>
  (<["analyzing" := WhileAnalyzing]>
  (<["imaging" := WhileImaging]>
  (<["parking" := WhileParking]>
  (<["parked" := WhileParked]> ∅))))))))).

(** The name each handler assigns to [self.current_state] on entry. *)
Definition state_name (h : Handler) : string :=
  match h with
  | WhileShutdown => "shutdown"
  | WhileSleeping => "sleeping"
  | WhileGettingReady => "getting ready"
  | WhileScheduling => "scheduling"
  | WhileSlewing => "slewing"
  | WhileTakingTestImage => "taking test image"
  | WhileAnalyzing => "analyzing"
  | WhileImaging => "imaging"
  | WhileParking => "parking"
  | WhileParked => "parked"
  end.

(** ** The module namespace *)

(** What a global name can denote.  The module itself binds only imported
    modules and the class; the other four are the parts of an instance that a
    caller could bind under a global name. *)
Inductive GlobalValue : Type :=
  | GModule
  | GClass
  | GObservatory    (* the instance itself *)
  | GStates         (* its [states] mapper *)
  | GScheduler      (* its scheduler *)
  | GTarget.        (* its scheduler's target *)

(** The names bound at module level by observatory.py, top to bottom: the
    imported modules and the class.  (The [__future__] line also binds
    [division] and [print_function]; no method reads either.) *)
Definition module_globals : gmap string GlobalValue :=
  list_to_map
    [("sys", GModule); ("os", GModule); ("argparse", GModule);
     ("ephem", GModule); ("datetime", GModule); ("time", GModule);
     ("importlib", GModule); ("panoptes", GModule); ("mount", GModule);
     ("camera", GModule); ("weather", GModule); ("logger", GModule);
     ("config", GModule); ("error", GModule); ("Observatory", GClass)].

(** ** The world around the instance *)

(** Everything a method obtains from outside: which collaborator calls and
    which file operations raise, the answer of [time_to_start], the clocks
    and the ephemeris.  [time_to_start] is called by [while_shutdown] but
    defined nowhere in the source, so its answer is a parameter. *)
Record World := mkWorld {
  broken : list Command;
  io_broken : list FileOp;
  time_to_start : bool;
  ephem_now : nat -> Z;
  datetime_now : nat -> Z;
  solar_altitude : Z -> Q }.

#[global] Instance Command_eq_dec : EqDecision Command.
Proof. solve_decision. Defined.

#[global] Instance FileOp_eq_dec : EqDecision FileOp.
Proof. solve_decision. Defined.

Definition fails (w : World) (c : Command) : bool := bool_decide (c ∈ broken w).

Definition io_fails (w : World) (op : FileOp) : bool := bool_decide (op ∈ io_broken w).

(** ** The monad *)

Inductive Outcome (A : Type) : Type :=
  | Ret (a : A)
  | Raise (e : Exn).
Arguments Ret {A} a.
Arguments Raise {A} e.

(** A computation takes the instance and gives an outcome, the instance as it
    is then (mutations survive an exception), and the events it emitted. *)
Definition M (A : Type) : Type := Observatory -> Outcome A * Observatory * list Event.

Definition ret {A} (a : A) : M A := fun s => (Ret a, s, []).

Definition raise {A} (e : Exn) : M A := fun s => (Raise e, s, []).

Definition bind {A B} (m : M A) (k : A -> M B) : M B :=
  fun s =>
    match m s with
    | (Ret a, s1, ev1) =>
        match k a s1 with
        | (r, s2, ev2) => (r, s2, (ev1 ++ ev2)%list)
        end
    | (Raise e, s1, ev1) => (Raise e, s1, ev1)
    end.

Notation "'let!' x ':=' m 'in' k" := (bind m (fun x => k))
  (at level 10, x name, m at level 100, k at level 200).
Notation "m '>>' k" := (bind m (fun _ => k))
  (at level 65, right associativity).

(** [try: body  except: handler] with a bare except clause. *)
Definition try_except (body handler : M unit) : M unit :=
  fun s =>
    match body s with
    | (Ret a, s1, ev1) => (Ret a, s1, ev1)
    | (Raise _, s1, ev1) =>
        match handler s1 with
        | (r, s2, ev2) => (r, s2, (ev1 ++ ev2)%list)
        end
    end.

(** [if c: body] without an else branch. *)
Definition when (c : bool) (body : M unit) : M unit :=
  if c then body else ret tt.

Definition get : M Observatory := fun s => (Ret s, s, []).

Definition modify (f : Observatory -> Observatory) : M unit :=
  fun s => (Ret tt, f s, []).

Definition emit (e : Event) : M unit := fun s => (Ret tt, s, [e]).

(** ** Attribute assignments *)

Definition with_current_state (v : string) (s : Observatory) : Observatory :=
  mkObservatory v (states s) (is_dark_attr s) (camera s) (mount s)
    (weather_safe s) (scheduler_target s) (site_date s) (sun_alt s)
    (clock_reads s) (heartbeat_file s).

Definition with_is_dark_attr (v : DarkAttr) (s : Observatory) : Observatory :=
  mkObservatory (current_state s) (states s) v (camera s) (mount s)
    (weather_safe s) (scheduler_target s) (site_date s) (sun_alt s)
    (clock_reads s) (heartbeat_file s).

Definition with_scheduler_target (v : option Target) (s : Observatory) : Observatory :=
  mkObservatory (current_state s) (states s) (is_dark_attr s) (camera s)
    (mount s) (weather_safe s) v (site_date s) (sun_alt s)
    (clock_reads s) (heartbeat_file s).

Definition with_site_date (v : Z) (s : Observatory) : Observatory :=
  mkObservatory (current_state s) (states s) (is_dark_attr s) (camera s)
    (mount s) (weather_safe s) (scheduler_target s) v (sun_alt s)
    (clock_reads s) (heartbeat_file s).

Definition with_sun_alt (v : option Q) (s : Observatory) : Observatory :=
  mkObservatory (current_state s) (states s) (is_dark_attr s) (camera s)
    (mount s) (weather_safe s) (scheduler_target s) (site_date s) v
    (clock_reads s) (heartbeat_file s).

Definition with_clock_reads (v : nat) (s : Observatory) : Observatory :=
  mkObservatory (current_state s) (states s) (is_dark_attr s) (camera s)
    (mount s) (weather_safe s) (scheduler_target s) (site_date s) (sun_alt s)
    v (heartbeat_file s).

Definition with_heartbeat_file (v : MarkerFile) (s : Observatory) : Observatory :=
  mkObservatory (current_state s) (states s) (is_dark_attr s) (camera s)
    (mount s) (weather_safe s) (scheduler_target s) (site_date s) (sun_alt s)
    (clock_reads s) v.

(** The truth value of [self.scheduler.target]: [None] is false, a target
    object is true. *)
Definition has_target (s : Observatory) : bool :=
  match scheduler_target s with
  | Some _ => true
  | None => false
  end.

(** [x < y] on the values of two Python numbers. *)
Definition Qlt_bool (x y : Q) : bool := negb (Qle_bool y x).

(** ** The methods of the class *)

Section Methods.

(** The module namespace the methods resolve global names in, and the world
    they run in. *)
Variable G : gmap string GlobalValue.
Variable w : World.

(** *** Primitive steps *)

(** A call on a collaborator: it is recorded, then returns or raises.  What a
    call does inside the collaborator is not in the source; the status
    attributes ([camera.connected] and the like) are read as the instance
    holds them. *)
Definition call (c : Command) : M unit :=
  fun s => (if fails w c then Raise (CommandFailure c) else Ret tt, s, [Call c]).

Definition log (l : Level) (msg : string) : M unit := emit (Log l msg).

Definition debug_info (msg : string) : M unit := emit (DebugInfo msg).

Definition sleep (seconds : Z) : M unit := emit (Sleep seconds).

Definition set_current_state (v : string) : M unit :=
  modify (with_current_state v).

(** Reading a global name. *)
Definition load_global (x : string) : M GlobalValue :=
  match G !! x with
  | Some v => ret v
  | None => raise (NameError x)
  end.

(** [ephem.now()] and [datetime.datetime.now()]: the next reading of the
    clock. *)
Definition read_ephem_now : M Z :=
  fun s => (Ret (ephem_now w (clock_reads s)),
            with_clock_reads (S (clock_reads s)) s, [ClockRead]).

Definition read_datetime_now : M Z :=
  fun s => (Ret (datetime_now w (clock_reads s)),
            with_clock_reads (S (clock_reads s)) s, [ClockRead]).

(** [self.sun.compute(self.site)]: the ephemeris gives the sun's altitude
    for the date stored on the site. *)
Definition sun_compute : M unit :=
  emit SunCompute >>
  modify (fun s => with_sun_alt (Some (solar_altitude w (site_date s))) s).

(** *** is_dark *)

Definition default_dark_horizon : Q := (-12) # 1.

(** The body of the method [is_dark(self, dark_horizon=-12)]. *)
Definition is_dark (dark_horizon : Q) : M bool :=
  log DEBUG "Calculating is_dark." >>
  let! now := read_ephem_now in
  modify (with_site_date now) >>
  sun_compute >>
  let! s := get in
  match sun_alt s with
  | Some alt =>
      modify (with_is_dark_attr (DarkValue (Qlt_bool alt dark_horizon))) >>
      let! s' := get in
      match is_dark_attr s' with
      | DarkValue b => ret b
      | _ => raise (AttributeError "is_dark")
      end
  | None => raise (AttributeError "alt")
  end.

(** The expression [self.is_dark(dark_horizon)]: look the attribute up on
    the instance, then call what is found. *)
Definition call_is_dark_with (dark_horizon : Q) : M bool :=
  let! s := get in
  match is_dark_attr s with
  | DarkMethod => is_dark dark_horizon
  | DarkValue _ => raise (TypeError "'bool' object is not callable")
  | DarkCallable answer => ret answer
  end.

(** The expression [self.is_dark()]. *)
Definition call_is_dark : M bool := call_is_dark_with default_dark_horizon.

(** *** heartbeat *)

Definition open_heartbeat_file : M unit :=
  fun s =>
    if io_fails w OpenForWriting
    then (Raise (IOError OpenForWriting), s, [File OpenForWriting])
    else (Ret tt, with_heartbeat_file (mkMarkerFile [] [] true) s,
          [File OpenForWriting]).

Definition write_line (line : Z) : M unit :=
  fun s =>
    if io_fails w WriteLine
    then (Raise (IOError WriteLine), s, [File WriteLine])
    else (Ret tt,
          with_heartbeat_file
            (mkMarkerFile (on_disk (heartbeat_file s))
               (buffered (heartbeat_file s) ++ [line]) true) s,
          [File WriteLine]).

(** Closing flushes what was written; a failing close loses it. *)
Definition close_heartbeat_file : M unit :=
  fun s =>
    if io_fails w Close
    then (Raise (IOError Close),
          with_heartbeat_file
            (mkMarkerFile (on_disk (heartbeat_file s)) [] false) s,
          [File Close])
    else (Ret tt,
          with_heartbeat_file
            (mkMarkerFile
               (on_disk (heartbeat_file s) ++ buffered (heartbeat_file s))
               [] false) s,
          [File Close]).

(** The body of a [with open(...)] block: the file is closed on the way out,
    whether the body returned or raised. *)
Definition closing (body : M unit) : M unit :=
  fun s =>
    match body s with
    | (r, s1, ev1) =>
        match close_heartbeat_file s1 with
        | (Ret _, s2, ev2) => (r, s2, (ev1 ++ ev2)%list)
        | (Raise e, s2, ev2) => (Raise e, s2, (ev1 ++ ev2)%list)
        end
    end.

Definition heartbeat : M unit :=
  log DEBUG "Touching heartbeat file" >>
  open_heartbeat_file >>
  closing (let! now := read_datetime_now in write_line now).

(** *** query_conditions *)

(** [observatory.<part>]: the global name must be bound, and to something
    that has the part. *)
Definition global_observatory (part : string) : M unit :=
  let! v := load_global "observatory" in
  match v with
  | GObservatory => ret tt
  | _ => raise (AttributeError part)
  end.

Definition query_conditions : M unit :=
  global_observatory "weather" >> call WeatherCheckConditions >>
  global_observatory "camera" >> call CameraIsConnected >>
  global_observatory "camera" >> call CameraIsCooling >>
  global_observatory "camera" >> call CameraIsCooled >>
  global_observatory "camera" >> call CameraIsExposing >>
  global_observatory "mount" >> call MountIsConnected >>
  global_observatory "mount" >> call MountIsTracking >>
  global_observatory "mount" >> call MountIsSlewing >>
  global_observatory "mount" >> call MountIsParked.

(** *** The state handlers *)

(** The first two statements of every handler. *)
Definition enter (st : string) : M unit :=
  set_current_state st >>
  let! s := get in
  debug_info ("Entering " ++ current_state s ++ " while_state function.").

(** [return self.current_state]. *)
Definition return_current_state : M string :=
  let! s := get in ret (current_state s).

(** The except clause of a corrective action: go to parking, log, park. *)
Definition escalate (msg : string) : M unit :=
  set_current_state "parking" >>
  log CRITICAL msg >>
  call MountPark.

(** [try: <command>  except: <escalate>]. *)
Definition guarded (c : Command) (msg : string) : M unit :=
  try_except (call c) (escalate msg).

(** The block shared by getting ready, scheduling and slewing:
    go to parking and park; a failing park goes to getting ready. *)
Definition park_or_get_ready (reason : string) : M unit :=
  set_current_state "parking" >>
  log INFO reason >>
  try_except (call MountPark)
    (set_current_state "getting ready" >>
     log CRITICAL "Unable to park during bad weather.").

Definition while_shutdown : M string :=
  enter "shutdown" >>
  let! s := get in
  (if negb (time_to_start w) && negb (cam_connected (camera s))
      && negb (mnt_connected (mount s))
   then
     log INFO "In shutdown state.  Waiting 60 sec for dark." >>
     sleep 60
   else
     when (mnt_connected (mount s))
       (log WARNING "Mount is connected in shutdown state.  Disconnecting." >>
        call MountDisconnect) >>
     when (cam_connected (camera s))
       (log WARNING "Camera is connected in shutdown state.  Disconnecting." >>
        call CameraDisconnect) >>
     when (time_to_start w)
       (log INFO "Connect to camera and mount.  Transition to sleeping." >>
        set_current_state "sleeping" >>
        guarded CameraConnect "Unable to connect to camera.  Parking." >>
        guarded MountConnect "Unable to connect to mount.  Parking.")) >>
  return_current_state.

Definition while_sleeping : M string :=
  enter "sleeping" >>
  let! dark := call_is_dark in
  let! s := get in
  (if negb dark && cam_connected (camera s) && negb (cam_cooling (camera s))
      && negb (cam_exposing (camera s)) && mnt_connected (mount s)
      && negb (mnt_tracking (mount s)) && negb (mnt_slewing (mount s))
      && mnt_parked (mount s)
   then
     log INFO "In sleeping state.  Waiting 60 sec for dark." >>
     sleep 60
   else
     when (negb (cam_connected (camera s)))
       (log WARNING "Camera is not connected.  Connecting." >>
        guarded CameraConnect "Unable to connect to camera.  Parking.") >>
     when (cam_cooling (camera s))
       (log WARNING "Camera is cooling.  Turning off cooler." >>
        guarded (CameraSetCooling false)
          "Camera not responding to set cooling.  Parking.") >>
     when (cam_exposing (camera s))
       (log WARNING "Camera is exposing.  Canceling exposure." >>
        guarded CameraCancelExposure
          "Camera not responding to cancel exposure.  Parking.") >>
     when (negb (mnt_connected (mount s)))
       (log WARNING "Mount is not connected.  Connecting." >>
        guarded MountConnect "Unable to connect to mount.  Parking.") >>
     when (mnt_tracking (mount s))
       (log WARNING "Mount is tracking.  Turning off tracking." >>
        guarded (MountSetTrackingRate 0 0)
          "Mount not responding to set tracking.  Parking.") >>
     when (mnt_slewing (mount s))
       (log WARNING "Mount is slewing.  Canceling slew." >>
        guarded MountCancelSlew
          "Mount not responding to cancel slew.  Parking.") >>
     when (negb (mnt_parked (mount s)))
       (escalate "Mount not parked in sleeping state.  Parking.") >>
     let! dark_now := call_is_dark in
     when (dark_now && weather_safe s)
       (set_current_state "getting ready" >>
        log INFO "Conditions are now dark, moving to getting ready state." >>
        log INFO "Turning on camera cooler." >>
        guarded (CameraSetCooling true)
          "Camera not responding to set cooling.  Parking.")) >>
  return_current_state.

(** [scheduler.get_target()]: [scheduler] is read as a global name. *)
Definition global_scheduler_get_target : M unit :=
  let! v := load_global "scheduler" in
  match v with
  | GScheduler => call SchedulerGetTarget
  | _ => raise (AttributeError "get_target")
  end.

Definition while_getting_ready : M string :=
  enter "getting ready" >>
  let! dark := call_is_dark in
  let! s := get in
  (if dark && cam_connected (camera s) && cam_cooling (camera s)
      && negb (cam_cooled (camera s)) && negb (cam_exposing (camera s))
      && mnt_connected (mount s) && negb (mnt_tracking (mount s))
      && negb (mnt_slewing (mount s)) && negb (has_target s)
      && weather_safe s
   then
     log DEBUG "Conditions expected for getting ready state are met." >>
     log INFO "In getting ready state.  Waiting 10 sec for components to be ready." >>
     sleep 10
   else
     when (negb (cam_connected (camera s)))
       (log WARNING "Camera is not connected.  Connecting." >>
        guarded CameraConnect "Unable to connect to camera.  Parking.") >>
     when (negb (cam_cooling (camera s)))
       (log WARNING "Camera is not cooling.  Turning on cooling." >>
        guarded (CameraSetCooling true)
          "Camera not responding to set cooling.  Parking.") >>
     when (cam_exposing (camera s))
       (log WARNING "Camera is exposing.  Canceling exposure." >>
        guarded CameraCancelExposure
          "Camera not responding to cancel exposure.  Parking.") >>
     when (cam_cooled (camera s) && weather_safe s)
       (log WARNING "Camera is not cooling.  Turning on cooling." >>
        set_current_state "scheduling" >>
        try_except global_scheduler_get_target
          (set_current_state "getting ready" >>
           log WARNING
             "Scheduler failed to get a target.  Going back to getting ready state.")) >>
     when (negb (mnt_connected (mount s)))
       (log WARNING "Mount is not connected.  Connecting." >>
        guarded MountConnect "Unable to connect to mount.  Parking.") >>
     when (mnt_tracking (mount s))
       (log WARNING "Mount is tracking.  Turning off tracking." >>
        guarded (MountSetTrackingRate 0 0)
          "Mount not responding to set tracking.  Parking.") >>
     when (mnt_slewing (mount s))
       (log WARNING "Mount is slewing.  Canceling slew." >>
        guarded MountCancelSlew
          "Mount not responding to cancel slew.  Parking.") >>
     when (has_target s)
       (log DEBUG "Clearing target queue." >>
        modify (with_scheduler_target None)) >>
     when (negb (weather_safe s))
       (park_or_get_ready "Weather is bad.  Parking.")) >>
  return_current_state.

(** [self.mount.slew_to(target)]: the argument is read as a global name
    before the call is made. *)
Definition slew_to_global_target : M unit :=
  let! _ := load_global "target" in
  call MountSlewTo.

Definition while_scheduling : M string :=
  enter "scheduling" >>
  let! dark := call_is_dark in
  let! s := get in
  (if dark && cam_connected (camera s) && cam_cooling (camera s)
      && cam_cooled (camera s) && negb (cam_exposing (camera s))
      && mnt_connected (mount s) && negb (mnt_slewing (mount s))
      && weather_safe s
   then ret tt
   else
     let! dark_now := call_is_dark in
     when (negb dark_now)
       (park_or_get_ready "End of night.  Parking.") >>
     when (negb (cam_connected (camera s)))
       (set_current_state "getting ready" >>
        log WARNING
          "Camera not connected.  Connecting and going to getting ready state." >>
        guarded CameraConnect "Unable to connect to camera.  Parking.") >>
     when (negb (cam_cooling (camera s)))
       (set_current_state "getting ready" >>
        log WARNING
          "Camera cooler is off.  Turning cooler on and going to getting ready state." >>
        guarded (CameraSetCooling true)
          "Camera not responding to set cooling.  Parking.") >>
     when (negb (cam_cooled (camera s)))
       (set_current_state "getting ready" >>
        log WARNING
          "Camera not finished cooling.  Going to getting ready state.") >>
     when (cam_exposing (camera s))
       (set_current_state "getting ready" >>
        log WARNING
          "Camera is exposing.  Canceling exposure and going to getting ready state." >>
        guarded CameraCancelExposure
          "Camera not responding to cancel exposure.  Parking.") >>
     when (negb (mnt_connected (mount s)))
       (set_current_state "getting ready" >>
        log WARNING
          "Mount not connected.  Connecting and going to getting ready state." >>
        guarded MountConnect "Unable to connect to mount.  Parking.") >>
     when (mnt_slewing (mount s))
       (set_current_state "getting ready" >>
        log WARNING
          "Mount is slewing.  Cancelling slew and going to getting ready state." >>
        guarded MountCancelSlew
          "Mount not responding to cancel slew.  Parking.") >>
     match scheduler_target s with
     | Some t =>
         when (weather_safe s)
           (log INFO ("Target selected: " ++ name t) >>
            set_current_state "slewing" >>
            log INFO "Slewing telescope." >>
            try_except slew_to_global_target
              (log CRITICAL "Slew failed.  Going to getting ready." >>
               set_current_state "getting ready"))
     | None => ret tt
     end >>
     when (negb (weather_safe s))
       (park_or_get_ready "Weather is bad.  Parking.")) >>
  return_current_state.

(** [target.test_image_taken]: [target] is read as a global name. *)
Definition global_target_test_image_taken : M bool :=
  let! v := load_global "target" in
  let! s := get in
  match v, scheduler_target s with
  | GTarget, Some t => ret (test_image_taken t)
  | _, _ => raise (AttributeError "test_image_taken")
  end.

Definition while_slewing : M string :=
  enter "slewing" >>
  let! s := get in
  (if mnt_connected (mount s) && mnt_slewing (mount s)
   then ret tt
   else
     when (negb (mnt_slewing (mount s)) && weather_safe s)
       (let! taken := global_target_test_image_taken in
        if negb taken
        then set_current_state "taking test image" >>
             call (CameraTakeImage true)
        else set_current_state "imaging" >>
             call (CameraTakeImage false)) >>
     when (negb (weather_safe s))
       (park_or_get_ready "Weather is bad.  Parking.")) >>
  return_current_state.

(** The five remaining handlers only name their state and return it. *)
Definition while_taking_test_image : M string :=
  enter "taking test image" >> return_current_state.

Definition while_analyzing : M string :=
  enter "analyzing" >> return_current_state.

Definition while_imaging : M string :=
  enter "imaging" >> return_current_state.

Definition while_parking : M string :=
  enter "parking" >> return_current_state.

Definition while_parked : M string :=
  enter "parked" >> return_current_state.

(** Calling a bound method taken from [self.states]. *)
Definition run_handler (h : Handler) : M string :=
  match h with
  | WhileShutdown => while_shutdown
  | WhileSleeping => while_sleeping
  | WhileGettingReady => while_getting_ready
  | WhileScheduling => while_scheduling
  | WhileSlewing => while_slewing
  | WhileTakingTestImage => while_taking_test_image
  | WhileAnalyzing => while_analyzing
  | WhileImaging => while_imaging
  | WhileParking => while_parking
  | WhileParked => while_parked
  end.

(** *** The operations loop *)

(** [states[self.current_state]()]: [states] is read as a global name. *)
Definition dispatch : M string :=
  let! v := load_global "states" in
  let! s := get in
  match v with
  | GStates =>
      match states s !! current_state s with
      | Some h => run_handler h
      | None => raise (KeyError (current_state s))
      end
  | _ => raise (TypeError "object is not subscriptable")
  end.

(** One pass through the body of the [while True] loop, after the test for
    the stop signal. *)
Definition cycle : M unit :=
  query_conditions >>
  let! next_state := dispatch in
  set_current_state next_state.

(** [start_observing], with a bound on the number of passes; [None] means
    the bound was reached with the loop still running. *)
Fixpoint start_observing (fuel : nat) (s : Observatory)
  : option (Outcome unit * Observatory * list Event) :=
  match fuel with
  | O => None
  | S fuel' =>
      if String.eqb (current_state s) "stop_observing"
      then Some (Ret tt, s, [])
      else
        match cycle s with
        | (Ret _, s1, ev1) =>
            match start_observing fuel' s1 with
            | Some (r, s2, ev2) => Some (r, s2, (ev1 ++ ev2)%list)
            | None => None
            end
        | (Raise e, s1, ev1) => Some (Raise e, s1, ev1)
        end
  end.

(** [get_state]. *)
Definition get_state : M string := return_current_state.

End Methods.

(** ** Reading a run *)

Definition outcome {A} (r : Outcome A * Observatory * list Event) : Outcome A :=
  r.1.1.

Definition final {A} (r : Outcome A * Observatory * list Event) : Observatory :=
  r.1.2.

Definition events {A} (r : Outcome A * Observatory * list Event) : list Event :=
  r.2.

(** The collaborator calls among the events, in order. *)
Fixpoint commands (ev : list Event) : list Command :=
  match ev with
  | [] => []
  | Call c :: rest => c :: commands rest
  | _ :: rest => commands rest
  end.

(** How many times command [c] was called. *)
Definition count_calls (c : Command) (ev : list Event) : nat :=
  length (filter (fun c' => c' = c) (commands ev)).

(** How many messages were logged at level critical. *)
Fixpoint count_critical (ev : list Event) : nat :=
  match ev with
  | [] => 0
  | Log CRITICAL _ :: rest => S (count_critical rest)
  | _ :: rest => count_critical rest
  end.

(** How many times the camera was asked for an image, of either kind. *)
Definition count_take_image (ev : list Event) : nat :=
  (count_calls (CameraTakeImage true) ev + count_calls (CameraTakeImage false) ev)%nat.

(** ** Concrete worlds and instances *)

(** A world in which exactly the commands listed raise; the start time has
    come or not; the sun stands at [alt] degrees at all times. *)
Definition world_with (failing : list Command) (start : bool) (alt : Q) : World :=
  mkWorld failing [] start (fun n => Z.of_nat n) (fun n => Z.of_nat n)
    (fun _ => alt).

(** The instance as [__init__] leaves it (state shutdown, the mapper filled
    in), with the given status attributes. *)
Definition instance (cam : Camera) (mnt : Mount) (safe : bool)
    (tgt : option Target) : Observatory :=
  mkObservatory "shutdown" state_methods DarkMethod cam mnt safe tgt 0 None 0
    (mkMarkerFile [] [] false).

(** ** Notions used in the properties *)

(** Whether [self.is_dark()] can be called at all. *)
Definition callable (a : DarkAttr) : bool :=
  match a with
  | DarkValue _ => false
  | _ => true
  end.

(** What the method [is_dark] answers with the default horizon on this
    instance in this world: is the sun, at the next reading of the clock,
    below -12? *)
Definition darkness (w : World) (s : Observatory) : bool :=
  Qlt_bool (solar_altitude w (ephem_now w (clock_reads s))) default_dark_horizon.

(** The instance after the body of [is_dark] has run on it. *)
Definition after_is_dark (w : World) (s : Observatory) : Observatory :=
  with_is_dark_attr (DarkValue (darkness w s))
    (with_sun_alt (Some (solar_altitude w (ephem_now w (clock_reads s))))
       (with_site_date (ephem_now w (clock_reads s))
          (with_clock_reads (S (clock_reads s)) s))).

(** The condition of the first [if] of each handler, given the answers of
    [time_to_start()] and [is_dark()]: the state is settled when it holds.
    The five handlers without an [if] are always settled. *)
Definition settled (h : Handler) (start dark : bool) (s : Observatory) : bool :=
  match h with
  | WhileShutdown =>
      negb start && negb (cam_connected (camera s))
      && negb (mnt_connected (mount s))
  | WhileSleeping =>
      negb dark && cam_connected (camera s) && negb (cam_cooling (camera s))
      && negb (cam_exposing (camera s)) && mnt_connected (mount s)
      && negb (mnt_tracking (mount s)) && negb (mnt_slewing (mount s))
      && mnt_parked (mount s)
  | WhileGettingReady =>
      dark && cam_connected (camera s) && cam_cooling (camera s)
      && negb (cam_cooled (camera s)) && negb (cam_exposing (camera s))
      && mnt_connected (mount s) && negb (mnt_tracking (mount s))
      && negb (mnt_slewing (mount s)) && negb (has_target s)
      && weather_safe s
  | WhileScheduling =>
      dark && cam_connected (camera s) && cam_cooling (camera s)
      && cam_cooled (camera s) && negb (cam_exposing (camera s))
      && mnt_connected (mount s) && negb (mnt_slewing (mount s))
      && weather_safe s
  | WhileSlewing => mnt_connected (mount s) && mnt_slewing (mount s)
  | _ => true
  end.

(** The answer [self.is_dark()] gives on the instance, when it gives one. *)
Definition is_dark_answer (w : World) (s : Observatory) : option bool :=
  match is_dark_attr s with
  | DarkMethod => Some (darkness w s)
  | DarkValue _ => None
  | DarkCallable answer => Some answer
  end.

(** The handlers whose check [if not self.weather.safe] is reached, once, on
    the instance: getting ready whenever [is_dark] can be called; scheduling
    when [is_dark] is an attached callable answering true (the method cannot
    be called a second time, and by day the handler parks for the end of the
    night as well); slewing unless the mount is connected and still slewing. *)
Definition reaches_weather_check (h : Handler) (s : Observatory) : bool :=
  match h with
  | WhileGettingReady => callable (is_dark_attr s)
  | WhileScheduling =>
      match is_dark_attr s with
      | DarkCallable true => true
      | _ => false
      end
  | WhileSlewing => negb (mnt_connected (mount s) && mnt_slewing (mount s))
  | _ => false
  end.







(** The module namespace after a caller has bound the four names that the
    methods read as globals to the parts of the instance. *)
Definition harness_globals : gmap string GlobalValue :=
  <["observatory" := GObservatory]>
  (<["states" := GStates]>
  (<["scheduler" := GScheduler]>
  (<["target" := GTarget]> module_globals))).

(** A calm world: no call fails, the start time has not come, and the sun
    stands at [alt] degrees. *)
Definition calm (alt : Q) : World := world_with [] false alt.

(** Status attributes used in the examples. *)
Definition camera_off : Camera := mkCamera false false false false.
Definition camera_idle : Camera := mkCamera true false false false.
Definition camera_cooling : Camera := mkCamera true true false false.
Definition camera_cooled : Camera := mkCamera true true true false.
Definition mount_off : Mount := mkMount false false false false.
Definition mount_parked : Mount := mkMount true false false true.
Definition mount_slewing : Mount := mkMount true false true false.
Definition mount_pointing : Mount := mkMount true true false false.

(** A target with [taken] images out of [wanted]. *)
Definition target_with (taken wanted : Z) (test_taken solved : bool) : Target :=
  mkTarget "M42" wanted taken test_taken false solved false false.

(** ** Notions used in the further properties *)

(** Whether a string is the key under which the mapper of [__init__] holds a
    handler, and that handler assigns this very name on entry. *)
Definition registered (st : string) : bool :=
  match state_methods !! st with
  | Some h => String.eqb (state_name h) st
  | None => false
  end.

(** The handlers whose first condition starts with [self.is_dark()]. *)
Definition asks_is_dark (h : Handler) : bool :=
  match h with
  | WhileSleeping | WhileGettingReady | WhileScheduling => true
  | _ => false
  end.

(** The handlers whose other branch asks [self.is_dark()] once more. *)
Definition second_is_dark_in_else (h : Handler) : bool :=
  match h with
  | WhileSleeping | WhileScheduling => true
  | _ => false
  end.

(** The status polls of [query_conditions]. *)
Definition is_poll (c : Command) : bool :=
  match c with
  | WeatherCheckConditions | CameraIsConnected | CameraIsCooling
  | CameraIsCooled | CameraIsExposing | MountIsConnected | MountIsTracking
  | MountIsSlewing | MountIsParked => true
  | _ => false
  end.

(** The nine polls in the order [query_conditions] makes them. *)
Definition all_polls : list Command :=
  [WeatherCheckConditions; CameraIsConnected; CameraIsCooling; CameraIsCooled;
   CameraIsExposing; MountIsConnected; MountIsTracking; MountIsSlewing;
   MountIsParked].

(** Events that are not a status poll and not an operation on the heartbeat
    file. *)
Definition decides_on_snapshot (e : Event) : bool :=
  match e with
  | Call c => negb (is_poll c)
  | File _ => false
  | _ => true
  end.

(** The calls that a handler makes outside every [try]. *)
Definition unguarded (c : Command) : bool :=
  match c with
  | MountDisconnect | CameraDisconnect | MountPark | CameraTakeImage _ => true
  | _ => false
  end.

(** The exceptions that the text of the handlers lets out. *)
Definition may_leave_handler (e : Exn) : bool :=
  match e with
  | TypeError msg => String.eqb msg "'bool' object is not callable"
  | NameError x => String.eqb x "target"
  | AttributeError a => String.eqb a "test_image_taken"
  | CommandFailure c => unguarded c
  | KeyError _ => false
  | IOError _ => false
  end.

(** The states each handler can return in the module as written. *)
Definition successors (h : Handler) : list string :=
  match h with
  | WhileShutdown => ["shutdown"; "sleeping"; "parking"]
  | WhileSleeping => ["sleeping"; "getting ready"; "parking"]
  | WhileGettingReady => ["getting ready"; "parking"]
  | WhileScheduling => ["scheduling"; "getting ready"; "parking"]
  | WhileSlewing => ["slewing"; "getting ready"; "parking"]
  | _ => [state_name h]
  end.

Definition may_follow (h : Handler) (st : string) : bool :=
  existsb (String.eqb st) (successors h).

(** A computation that keeps a property of the instance, however it ends. *)
Definition preserves {A} (I : Observatory -> Prop) (m : M A) : Prop :=
  forall s, I s -> I (final (m s)).

(** A computation that, whenever it returns, returns [self.current_state]
    as it leaves it. *)
Definition returns_its_state (m : M string) : Prop :=
  forall s st, outcome (m s) = Ret st -> current_state (final (m s)) = st.

(** A computation that raises only exceptions accepted by [E]. *)
Definition raises_only {A} (E : Exn -> bool) (m : M A) : Prop :=
  forall s e, outcome (m s) = Raise e -> E e = true.

(** A computation that emits only events accepted by [P]. *)
Definition emits_only {A} (P : Event -> bool) (m : M A) : Prop :=
  forall s, forallb P (events (m s)) = true.

(** A computation that raises whenever it is started on an instance with
    property [I]. *)
Definition raises_under {A} (I : Observatory -> Prop) (m : M A) : Prop :=
  forall s, I s -> exists e, outcome (m s) = Raise e.

(** The seconds a handler may sleep: sixty in shutdown and sleeping, ten in
    getting ready, none elsewhere. *)
Definition sleeps_as (h : Handler) (e : Event) : bool :=
  match e with
  | Sleep seconds =>
      match h with
      | WhileShutdown | WhileSleeping => Z.eqb seconds 60
      | WhileGettingReady => Z.eqb seconds 10
      | _ => false
      end
  | _ => true
  end.

(** Every exception but [KeyError]. *)
Definition not_key_error (e : Exn) : bool :=
  match e with
  | KeyError _ => false
  | _ => true
  end.

(** The instance has the mapper of [__init__] and is in one of its states. *)
Definition dispatchable (s : Observatory) : Prop :=
  states s = state_methods /\ registered (current_state s) = true.

(** ** Building the instance *)

(** [create_mount], [create_camera] and [__init__] run before there is an
    instance to thread, and raise [ImportError] and [error.NotFound] besides
    the exceptions above: they are functions to a result and the log lines
    written on the way. *)
Inductive SetupExn : Type :=
  | Python (e : Exn)
  | ImportError (module_name : string)
  | NotFound (msg : string).

Inductive Built (A : Type) : Type :=
  | Done (a : A)
  | Failed (e : SetupExn).
Arguments Done {A} a.
Arguments Failed {A} e.

(** What [importlib.import_module] does for a brand: it raises [ImportError],
    it raises something else while the module is executed, or it gives a
    module that has the driver class or not. *)
Inductive Import : Type :=
  | NoSuchModule
  | ImportRaises (e : Exn)
  | Imported (has_driver_class : bool).

(** The drivers: what importing ['.<brand>'] from [panoptes.mount] and from
    [panoptes.camera] does, and what calling the driver class does ([None]
    for a driver object, or the exception). *)
Record Drivers := mkDrivers {
  import_mount : string -> Import;
  import_camera : string -> Import;
  new_mount : string -> option SetupExn;
  new_camera : string -> option SetupExn }.

(** [self.config]: the source uses it as a mapping ([in], [get]) whose
    entries [site] and [mount] are mappings again. *)
Definition Config : Type := gmap string (gmap string string).

(** A driver object, known by its brand. *)
Record Driver := mkDriver { brand_of : string }.

(** [create_mount(self, mount_info=None)]. *)
Definition create_mount (G : gmap string GlobalValue) (config : Config)
    (drivers : Drivers) (mount_info : option (gmap string string))
  : Built Driver * list Event :=
  let mount_info :=
    match mount_info with
    | Some info => Some info
    | None => config !! "mount"
    end in
  match mount_info with
  | None => (Failed (Python (TypeError "'NoneType' object is not subscriptable")), [])
  | Some info =>
      match info !! "class" with
      | None => (Failed (Python (KeyError "class")), [])
      | Some brand =>
          let logged := [Log INFO ("Creating mount: " ++ brand)] in
          match import_mount drivers brand with
          | NoSuchModule => (Failed (NotFound brand), logged)
          | ImportRaises e => (Failed (Python e), logged)
          | Imported false => (Failed (Python (AttributeError "Mount")), logged)
          | Imported true =>
              match G !! "port" with
              | None => (Failed (Python (NameError "port")), logged)
              | Some _ =>
                  match new_mount drivers brand with
                  | None => (Done (mkDriver brand), logged)
                  | Some e => (Failed e, logged)
                  end
              end
          end
      end
  end.

(** [create_camera(self, brand='rebel')]: the import and the call of the
    class are inside one [try] that catches [ImportError] only. *)
Definition create_camera (drivers : Drivers) (brand : string)
  : Built Driver * list Event :=
  let logged := [Log INFO ("Creating camera: " ++ brand)] in
  match import_camera drivers brand with
  | NoSuchModule => (Failed (NotFound brand), logged)
  | ImportRaises e => (Failed (Python e), logged)
  | Imported false => (Failed (Python (AttributeError "Camera")), logged)
  | Imported true =>
      match new_camera drivers brand with
      | None => (Done (mkDriver brand), logged)
      | Some (ImportError _) => (Failed (NotFound brand), logged)
      | Some e => (Failed e, logged)
      end
  end.

Definition default_camera_brand : string := "rebel".

(** [__init__]: the first log line and [self.mount = self.create_mount()].
    The statements that follow set up the site and the sun through the
    ephemeris library; they are the parameter [and_then], applied to the
    mount once it exists. *)
Definition init {A} (G : gmap string GlobalValue) (config : Config)
    (drivers : Drivers) (and_then : Driver -> Built A * list Event)
  : Built A * list Event :=
  let logged := [Log INFO "Initializing panoptes observatory"] in
  match create_mount G config drivers None with
  | (Done m, ev) =>
      match and_then m with
      | (r, ev') => (r, (logged ++ ev ++ ev')%list)
      end
  | (Failed e, ev) => (Failed e, (logged ++ ev)%list)
  end.

(** The exceptions with which [create_mount] ends in the module as written. *)
Definition create_mount_failure (config : Config) (drivers : Drivers)
  : SetupExn :=
  match config !! "mount" with
  | None => Python (TypeError "'NoneType' object is not subscriptable")
  | Some info =>
      match info !! "class" with
      | None => Python (KeyError "class")
      | Some brand =>
          match import_mount drivers brand with
          | NoSuchModule => NotFound brand
          | ImportRaises e => Python e
          | Imported false => Python (AttributeError "Mount")
          | Imported true => Python (NameError "port")
          end
      end
  end.

(** * Properties *)

(** ** Helper facts *)

Lemma Qlt_bool_iff (x y : Q) : Qlt_bool x y = true <-> (x < y)%Q.
Proof.
  unfold Qlt_bool. rewrite negb_true_iff. split.
  - intros H. apply Qnot_le_lt. intros Hle.
    apply Qle_bool_iff in Hle. congruence.
  - intros H. destruct (Qle_bool y x) eqn:E; [|reflexivity].
    apply Qle_bool_iff in E. exfalso. exact (Qlt_not_le _ _ H E).
Qed.

Lemma observatory_is_unbound : module_globals !! "observatory" = None.
Proof. vm_compute. reflexivity. Qed.

Lemma states_is_unbound : module_globals !! "states" = None.
Proof. vm_compute. reflexivity. Qed.

Lemma scheduler_is_unbound : module_globals !! "scheduler" = None.
Proof. vm_compute. reflexivity. Qed.

Lemma target_is_unbound : module_globals !! "target" = None.
Proof. vm_compute. reflexivity. Qed.

Lemma query_conditions_raises (w : World) (s : Observatory) :
  query_conditions module_globals w s = (Raise (NameError "observatory"), s, []).
Proof.
  unfold query_conditions, global_observatory, load_global.
  rewrite observatory_is_unbound. reflexivity.
Qed.

Lemma dispatch_raises (w : World) (s : Observatory) :
  dispatch module_globals w s = (Raise (NameError "states"), s, []).
Proof.
  unfold dispatch, load_global. rewrite states_is_unbound. reflexivity.
Qed.

(** The body of [is_dark], run on any instance: it reads the clock, stores the
    reading on the site, has the sun computed for it, and answers whether the
    altitude is below the horizon given; the answer is also stored under the
    name [is_dark]. *)
Lemma is_dark_body (w : World) (s : Observatory) (h : Q) :
  let now := ephem_now w (clock_reads s) in
  let answer := Qlt_bool (solar_altitude w now) h in
  outcome (is_dark w h s) = Ret answer
  /\ site_date (final (is_dark w h s)) = now
  /\ sun_alt (final (is_dark w h s)) = Some (solar_altitude w now)
  /\ is_dark_attr (final (is_dark w h s)) = DarkValue answer
  /\ events (is_dark w h s) = [Log DEBUG "Calculating is_dark."; ClockRead; SunCompute].
Proof. destruct s. cbn. repeat split. Qed.

(** C9.  On every instance whose current state is not the stop signal, the
    first pass of [start_observing] raises [NameError] for the name
    [observatory], read by [query_conditions], with the instance unchanged and
    nothing done; the dispatch expression, had it been reached, raises
    [NameError] for the name [states].  So no pass of the loop completes. *)
Theorem C9_first_cycle_raises_name_error (w : World) (s : Observatory) (fuel : nat) :
  current_state s <> "stop_observing" ->
  start_observing module_globals w (S fuel) s
    = Some (Raise (NameError "observatory"), s, [])
  /\ query_conditions module_globals w s = (Raise (NameError "observatory"), s, [])
  /\ dispatch module_globals w s = (Raise (NameError "states"), s, []).
Proof.
  intros Hrun. split; [|split].
  - cbn [start_observing].
    apply String.eqb_neq in Hrun. rewrite Hrun.
    unfold cycle, bind. rewrite query_conditions_raises. reflexivity.
  - apply query_conditions_raises.
  - apply dispatch_raises.
Qed.

(** The theorem at the instance [__init__] leaves, in a calm world. *)
Lemma C9_first_cycle_raises_name_error_witness :
  let w := calm (30 # 1) in
  let s := instance camera_off mount_off true None in
  start_observing module_globals w 1 s
    = Some (Raise (NameError "observatory"), s, [])
  /\ query_conditions module_globals w s = (Raise (NameError "observatory"), s, [])
  /\ dispatch module_globals w s = (Raise (NameError "states"), s, []).
Proof.
  refine (C9_first_cycle_raises_name_error (calm (30 # 1))
            (instance camera_off mount_off true None) 0 _).
  discriminate.
Defined.

(** C10.  On an instance that still has the method, the first call of
    [is_dark] completes and leaves the boolean it returned in the instance
    attribute [is_dark]; every later [self.is_dark()] on that instance raises
    [TypeError], in any world and for any horizon. *)
Theorem C10_is_dark_rebinds_itself (w : World) (s : Observatory) (h : Q) :
  is_dark_attr s = DarkMethod ->
  exists (b : bool) (s1 : Observatory) (ev : list Event),
    call_is_dark_with w h s = (Ret b, s1, ev)
    /\ is_dark_attr s1 = DarkValue b
    /\ forall (w' : World) (h' : Q),
         call_is_dark_with w' h' s1
           = (Raise (TypeError "'bool' object is not callable"), s1, []).
Proof.
  intros Hm. destruct s; cbn in Hm; subst.
  eexists _, _, _. split; [reflexivity|]. split; [reflexivity|].
  intros w' h'. reflexivity.
Qed.

(** The theorem on a fresh instance at night. *)
Lemma C10_is_dark_rebinds_itself_witness :
  let w := calm (-30 # 1) in
  let s := instance camera_idle mount_parked true None in
  exists (b : bool) (s1 : Observatory) (ev : list Event),
    call_is_dark_with w default_dark_horizon s = (Ret b, s1, ev)
    /\ is_dark_attr s1 = DarkValue b
    /\ forall (w' : World) (h' : Q),
         call_is_dark_with w' h' s1
           = (Raise (TypeError "'bool' object is not callable"), s1, []).
Proof.
  exact (C10_is_dark_rebinds_itself (calm (-30 # 1))
           (instance camera_idle mount_parked true None) default_dark_horizon
           eq_refl).
Defined.

(** ** The heartbeat file is touched by [heartbeat] only *)


Section Silent.

Context {A B : Type}.




End Silent.














(** ** Running a handler step by step *)

Lemma run_bind {A B} (m : M A) (k : A -> M B) (s : Observatory)
    (a : A) (s1 : Observatory) (ev1 : list Event) :
  m s = (Ret a, s1, ev1) ->
  bind m k s = (let '(r, s2, ev2) := k a s1 in (r, s2, (ev1 ++ ev2)%list)).
Proof. intros H. unfold bind. rewrite H. reflexivity. Qed.

Lemma enter_run (st : string) (s : Observatory) :
  enter st s
  = (Ret tt, with_current_state st s,
     [DebugInfo ("Entering " ++ st ++ " while_state function.")]).
Proof. reflexivity. Qed.

Lemma call_is_dark_method (w : World) (s : Observatory) :
  is_dark_attr s = DarkMethod ->
  call_is_dark w s
  = (Ret (darkness w s), after_is_dark w s,
     [Log DEBUG "Calculating is_dark."; ClockRead; SunCompute]).
Proof. intros H. destruct s. cbn in H. subst. reflexivity. Qed.

Lemma darkness_entered (w : World) (st : string) (s : Observatory) :
  darkness w (with_current_state st s) = darkness w s.
Proof. reflexivity. Qed.

Lemma run_enter {B} (st : string) (k : unit -> M B) (s : Observatory) :
  bind (enter st) k s
  = (let '(r, s2, ev2) := k tt (with_current_state st s) in
     (r, s2,
      ([DebugInfo ("Entering " ++ st ++ " while_state function.")] ++ ev2)%list)).
Proof. apply run_bind, enter_run. Qed.

Lemma run_is_dark_method {B} (w : World) (k : bool -> M B) (s : Observatory) :
  is_dark_attr s = DarkMethod ->
  bind (call_is_dark w) k s
  = (let '(r, s2, ev2) := k (darkness w s) (after_is_dark w s) in
     (r, s2,
      ([Log DEBUG "Calculating is_dark."; ClockRead; SunCompute] ++ ev2)%list)).
Proof. intros H. apply run_bind, call_is_dark_method, H. Qed.

(** Expose the answer of the first [self.is_dark()] of a handler run on an
    instance that still has the method, and make it a variable. *)
Ltac peel_dark :=
  rewrite !run_enter;
  rewrite !run_is_dark_method by reflexivity;
  rewrite !darkness_entered;
  match goal with
  | |- context [darkness ?w' ?s'] => generalize (darkness w' s')
  end.

(** Turn [a && negb b && ... = true] into values for the variables. *)
Ltac read_condition H :=
  cbn in H; unfold has_target in H; cbn in H;
  rewrite ?andb_true_iff, ?negb_true_iff in H; destruct_and?;
  repeat match goal with
  | E : match ?t with Some _ => _ | None => _ end = _ |- _ =>
      destruct t; try discriminate E; clear E
  end;
  subst.

Ltac run := vm_compute; repeat split; reflexivity.

(** ** Settled states *)

(** On an instance whose [is_dark] can be called, a handler whose condition
    holds returns its own state and calls no collaborator. *)
Lemma settled_is_idle (G : gmap string GlobalValue) (w : World)
    (s : Observatory) (h : Handler) (dark : bool) :
  is_dark_answer w s = Some dark ->
  settled h (time_to_start w) dark s = true ->
  outcome (run_handler G w h s) = Ret (state_name h)
  /\ commands (events (run_handler G w h s)) = [].
Proof.
  intros Hdark Hsettled.
  destruct s as [cs sts attr [c1 c2 c3 c4] [m1 m2 m3 m4] safe tgt date alt reads hb].
  destruct w as [br io start en dn sa].
  unfold is_dark_answer in Hdark. cbn in Hdark.
  destruct attr as [|b|b]; try discriminate Hdark; injection Hdark as <-.
  - destruct h; cbn [run_handler state_name];
      try (unfold while_sleeping, while_getting_ready, while_scheduling;
           revert Hsettled;
           peel_dark;
           intros dark Hsettled);
      read_condition Hsettled; run.
  - destruct h; read_condition Hsettled; run.
Qed.

(** ** C1: bad weather *)

(** C1, counterexample.  The shutdown handler, invoked with
    [weather.safe = False] on its settled snapshot, returns shutdown and does
    not call [mount.park()]. *)
Lemma C1_shutdown_ignores_weather :
  let s := instance camera_off mount_off false None in
  let r := run_handler module_globals (calm (30 # 1)) WhileShutdown s in
  weather_safe s = false
  /\ outcome r = Ret "shutdown"
  /\ count_calls MountPark (events r) = 0%nat.
Proof. vm_compute. repeat split; reflexivity. Qed.

(** C1, amended.  With [weather.safe = False] and no collaborator call
    failing, the handler returns parking and calls [mount.park()] exactly once
    for getting ready (when [is_dark] can be called), for scheduling (when
    [is_dark] is an attached callable answering true) and for slewing (unless
    the mount is connected and still slewing). *)
Theorem C1_bad_weather_parks (G : gmap string GlobalValue) (w : World)
    (s : Observatory) (h : Handler) :
  weather_safe s = false ->
  broken w = [] ->
  reaches_weather_check h s = true ->
  outcome (run_handler G w h s) = Ret "parking"
  /\ count_calls MountPark (events (run_handler G w h s)) = 1%nat.
Proof.
  intros Hsafe Hok Hreach.
  destruct s as [cs sts attr [c1 c2 c3 c4] [m1 m2 m3 m4] safe tgt date alt reads hb].
  destruct w as [br io start en dn sa].
  cbn in Hsafe, Hok. subst.
  destruct h; try discriminate Hreach; cbn [run_handler].
  - destruct attr as [|b|b]; try discriminate Hreach; clear Hreach.
    + unfold while_getting_ready. peel_dark. intros dark.
      destruct dark, c1, c2, c3, c4, m1, m2, m3, tgt; run.
    + destruct b, c1, c2, c3, c4, m1, m2, m3, tgt; run.
  - destruct attr as [|b|[|]]; try discriminate Hreach; clear Hreach.
    destruct c1, c2, c3, c4, m1, m3, tgt; run.
  - cbn in Hreach. destruct m1, m3; try discriminate Hreach; run.
Qed.

(** The theorem for getting ready at night, camera cooling, weather bad. *)
Lemma C1_bad_weather_parks_witness :
  let s := instance camera_cooling mount_parked false None in
  let r := run_handler module_globals (calm (-30 # 1)) WhileGettingReady s in
  outcome r = Ret "parking" /\ count_calls MountPark (events r) = 1%nat.
Proof.
  exact (C1_bad_weather_parks module_globals (calm (-30 # 1))
           (instance camera_cooling mount_parked false None) WhileGettingReady
           eq_refl eq_refl eq_refl).
Defined.

(** ** C2: failing corrective actions *)


(** In the shutdown handler [mount.disconnect()] is outside every [try],
    unlike the two connects that follow it: when it fails the exception
    leaves the handler, nothing is logged at critical level and
    [mount.park()] is not called. *)
Example failed_disconnect_leaves_shutdown :
  let s := instance camera_off mount_parked true None in
  let r := run_handler module_globals (world_with [MountDisconnect] false (30 # 1))
             WhileShutdown s in
  outcome r = Raise (CommandFailure MountDisconnect)
  /\ count_calls MountPark (events r) = 0%nat
  /\ count_critical (events r) = 0%nat.
Proof. vm_compute. repeat split; reflexivity. Qed.




(** ** C3: the scheduler fails *)

(** C3, counterexample.  A failure to get a target is not the only failure
    that does not end in parking: in the scheduling handler a failed slew is
    logged and answered by going back to getting ready, without a call of
    [mount.park()].  (In the module as written the slew fails before the mount
    is called, because [target] is unbound; with [target] bound and
    [slew_to] failing the handler does the same.) *)
Lemma C3_failed_slew_goes_to_getting_ready :
  let s := with_is_dark_attr (DarkCallable true)
             (instance camera_cooled mount_slewing true
                (Some (target_with 0 3 false false))) in
  let r := run_handler module_globals (calm (-30 # 1)) WhileScheduling s in
  let r' := run_handler harness_globals (world_with [MountSlewTo] false (-30 # 1))
              WhileScheduling s in
  (outcome r = Ret "getting ready"
   /\ count_calls MountPark (events r) = 0%nat
   /\ count_critical (events r) = 1%nat)
  /\ (outcome r' = Ret "getting ready"
      /\ count_calls MountSlewTo (events r') = 1%nat
      /\ count_calls MountPark (events r') = 0%nat
      /\ count_critical (events r') = 1%nat).
Proof. vm_compute. repeat split; reflexivity. Qed.

(** C3, amended.  If the getting ready handler is invoked with
    [camera.cooled] and [weather.safe] true on an instance whose [is_dark] can
    be called, and getting a target is the only call that fails, the handler
    returns getting ready and does not call [mount.park()]: in the module as
    written, where the name [scheduler] is unbound and the call is never made,
    and also where [scheduler] is bound and [get_target()] is called, once,
    and raises. *)
Theorem C3_scheduling_failure_retries (w : World) (s : Observatory) :
  callable (is_dark_attr s) = true ->
  cam_cooled (camera s) = true ->
  weather_safe s = true ->
  broken w = [SchedulerGetTarget] ->
  (outcome (while_getting_ready module_globals w s) = Ret "getting ready"
   /\ count_calls MountPark (events (while_getting_ready module_globals w s)) = 0%nat
   /\ count_calls SchedulerGetTarget
        (events (while_getting_ready module_globals w s)) = 0%nat)
  /\ (outcome (while_getting_ready harness_globals w s) = Ret "getting ready"
      /\ count_calls MountPark (events (while_getting_ready harness_globals w s)) = 0%nat
      /\ count_calls SchedulerGetTarget
           (events (while_getting_ready harness_globals w s)) = 1%nat).
Proof.
  intros Hcall Hcooled Hsafe Hbroken.
  destruct s as [cs sts attr [c1 c2 c3 c4] [m1 m2 m3 m4] safe tgt date alt reads hb].
  destruct w as [br io start en dn sa].
  cbn in Hcooled, Hsafe, Hbroken. subst.
  destruct attr as [|b|b]; try discriminate Hcall; clear Hcall.
  - unfold while_getting_ready. peel_dark. intros dark.
    destruct dark, c1, c2, c4, m1, m2, m3, tgt; run.
  - destruct b, c1, c2, c4, m1, m2, m3, tgt; run.
Qed.

(** The theorem for a cooled camera under a safe sky at night. *)
Lemma C3_scheduling_failure_retries_witness :
  let w := world_with [SchedulerGetTarget] false (-30 # 1) in
  let s := instance camera_cooled mount_parked true None in
  (outcome (while_getting_ready module_globals w s) = Ret "getting ready"
   /\ count_calls MountPark (events (while_getting_ready module_globals w s)) = 0%nat
   /\ count_calls SchedulerGetTarget
        (events (while_getting_ready module_globals w s)) = 0%nat)
  /\ (outcome (while_getting_ready harness_globals w s) = Ret "getting ready"
      /\ count_calls MountPark (events (while_getting_ready harness_globals w s)) = 0%nat
      /\ count_calls SchedulerGetTarget
           (events (while_getting_ready harness_globals w s)) = 1%nat).
Proof.
  exact (C3_scheduling_failure_retries
           (world_with [SchedulerGetTarget] false (-30 # 1))
           (instance camera_cooled mount_parked true None)
           eq_refl eq_refl eq_refl eq_refl).
Defined.

(** ** C4: settled states *)

(** C4, the failing input.  A sleeping observatory by day, everything
    connected, idle and parked: the first invocation of the handler returns
    sleeping and calls nothing; the invocation of the next cycle, on the
    instance the first one left, with the same settled status, raises
    [TypeError], because the first [self.is_dark()] replaced the method by its
    answer. *)
Theorem C4_second_settled_cycle_raises :
  let w := calm (30 # 1) in
  let s := instance camera_idle mount_parked true None in
  let first := run_handler module_globals w WhileSleeping s in
  let second := run_handler module_globals w WhileSleeping (final first) in
  settled WhileSleeping (time_to_start w) false s = true
  /\ outcome first = Ret "sleeping"
  /\ commands (events first) = []
  /\ settled WhileSleeping (time_to_start w) false (final first) = true
  /\ outcome second = Raise (TypeError "'bool' object is not callable").
Proof. vm_compute. repeat split; reflexivity. Qed.

(** ** C5: after the slew *)

(** C5, the failing inputs.  With the mount no longer slewing and the weather
    safe, the slewing handler reads the global name [target], which the module
    does not bind: the handler raises [NameError] and the camera is not asked
    for an image, whatever the target's [test_image_taken]. *)
Theorem C5_slewing_reads_unbound_target (w : World) (s : Observatory) :
  mnt_slewing (mount s) = false ->
  weather_safe s = true ->
  outcome (while_slewing module_globals w s) = Raise (NameError "target")
  /\ count_take_image (events (while_slewing module_globals w s)) = 0%nat.
Proof.
  intros Hslew Hsafe.
  destruct s as [cs sts attr [c1 c2 c3 c4] [m1 m2 m3 m4] safe tgt date alt reads hb].
  destruct w as [br io start en dn sa].
  cbn in Hslew, Hsafe. subst.
  destruct m1; run.
Qed.

(** The theorem for a mount that has arrived and a target without test
    image. *)
Lemma C5_slewing_reads_unbound_target_witness :
  let s := instance camera_cooled mount_pointing true
             (Some (target_with 0 3 false false)) in
  outcome (while_slewing module_globals (calm (-30 # 1)) s)
    = Raise (NameError "target")
  /\ count_take_image (events (while_slewing module_globals (calm (-30 # 1)) s))
     = 0%nat.
Proof.
  exact (C5_slewing_reads_unbound_target (calm (-30 # 1))
           (instance camera_cooled mount_pointing true
              (Some (target_with 0 3 false false)))
           eq_refl eq_refl).
Defined.

(** Where a caller has bound [target] to the scheduler's target, the handler
    does what it was written for: a test image if none was taken, a science
    image otherwise, asked for once. *)
Lemma slewing_with_target_bound (w : World) (s : Observatory) (t : Target) :
  mnt_slewing (mount s) = false ->
  weather_safe s = true ->
  scheduler_target s = Some t ->
  broken w = [] ->
  outcome (while_slewing harness_globals w s)
    = Ret (if test_image_taken t then "imaging" else "taking test image")
  /\ commands (events (while_slewing harness_globals w s))
     = [CameraTakeImage (negb (test_image_taken t))].
Proof.
  intros Hslew Hsafe Htgt Hok.
  destruct s as [cs sts attr [c1 c2 c3 c4] [m1 m2 m3 m4] safe tgt date alt reads hb].
  destruct w as [br io start en dn sa].
  destruct t as [n mi it taken co so aa ap].
  cbn in Hslew, Hsafe, Htgt, Hok. subst.
  destruct m1, taken; run.
Qed.

(** ** C6: analyzing *)

(** C6, the failing inputs.  The analyzing handler names its state and returns
    it: it returns analyzing for every instance, never slewing nor getting
    ready, calls nothing, and leaves the target, its [completed] field
    included, as it was. *)
Theorem C6_analyzing_only_returns_analyzing (s : Observatory) :
  outcome (while_analyzing s) = Ret "analyzing"
  /\ scheduler_target (final (while_analyzing s)) = scheduler_target s
  /\ commands (events (while_analyzing s)) = [].
Proof. repeat split; reflexivity. Qed.

(** Two images of three with the astrometry solved: analyzing, not slewing.
    Three of three: analyzing, not getting ready, and [completed] still
    false. *)
Example analyzing_at_the_completion_gate :
  let run taken :=
    while_analyzing
      (instance camera_cooled mount_pointing true
         (Some (target_with taken 3 true true))) in
  outcome (run 2%Z) = Ret "analyzing"
  /\ outcome (run 3%Z) = Ret "analyzing"
  /\ (completed <$> scheduler_target (final (run 3%Z))) = Some false.
Proof. vm_compute. repeat split; reflexivity. Qed.

(** ** C7: the day/night oracle *)

(** On an instance that still has the method, [self.is_dark(h)] returns, and
    answers true exactly when the sun's altitude at the clock reading it took
    is strictly below [h]. *)
Lemma first_is_dark_call (w : World) (s : Observatory) (h : Q) :
  is_dark_attr s = DarkMethod ->
  exists b : bool,
    outcome (call_is_dark_with w h s) = Ret b
    /\ (b = true <-> (solar_altitude w (ephem_now w (clock_reads s)) < h)%Q)
    /\ site_date (final (call_is_dark_with w h s)) = ephem_now w (clock_reads s).
Proof.
  intros Hm. destruct s. cbn in Hm. subst.
  eexists. split; [reflexivity|]. split; [apply Qlt_bool_iff|reflexivity].
Qed.

(** The twilight boundary, on fresh instances: not dark at -11.9 degrees,
    dark at -12.1 degrees. *)
Example twilight_boundary :
  let s := instance camera_idle mount_parked true None in
  outcome (call_is_dark (calm (-119 # 10)) s) = Ret false
  /\ outcome (call_is_dark (calm (-121 # 10)) s) = Ret true.
Proof. vm_compute. split; reflexivity. Qed.

(** C7, the failing input.  With the sun at -12.1 degrees the first
    [self.is_dark()] on an instance reads the clock, stores the reading on the
    site and answers true; the second one, on the same instance with the same
    sun, raises [TypeError] without reading the clock or computing anything. *)
Theorem C7_second_is_dark_call_raises :
  let w := calm (-121 # 10) in
  let s := instance camera_idle mount_parked true None in
  let first := call_is_dark w s in
  let second := call_is_dark w (final first) in
  outcome first = Ret true
  /\ events first = [Log DEBUG "Calculating is_dark."; ClockRead; SunCompute]
  /\ site_date (final first) = ephem_now w 0
  /\ outcome second = Raise (TypeError "'bool' object is not callable")
  /\ events second = [].
Proof. vm_compute. repeat split; reflexivity. Qed.

(** ** C8: the heartbeat *)




(** * Further properties *)

(** ** Reasoning along the structure of a method *)

Lemma final_continue {A} (x : Outcome A * Observatory * list Event)
    (ev1 : list Event) :
  final (let '(r, s2, ev2) := x in (r, s2, (ev1 ++ ev2)%list)) = final x.
Proof. destruct x as [[r s2] ev2]. reflexivity. Qed.

Lemma outcome_continue {A} (x : Outcome A * Observatory * list Event)
    (ev1 : list Event) :
  outcome (let '(r, s2, ev2) := x in (r, s2, (ev1 ++ ev2)%list)) = outcome x.
Proof. destruct x as [[r s2] ev2]. reflexivity. Qed.

Lemma events_continue {A} (x : Outcome A * Observatory * list Event)
    (ev1 : list Event) :
  events (let '(r, s2, ev2) := x in (r, s2, (ev1 ++ ev2)%list))
  = (ev1 ++ events x)%list.
Proof. destruct x as [[r s2] ev2]. reflexivity. Qed.

Section Preserves.

Context (I : Observatory -> Prop).

Lemma preserves_ret {A} (a : A) : preserves I (ret a).
Proof. intros s H. exact H. Qed.

Lemma preserves_raise {A} (e : Exn) : preserves I (@raise A e).
Proof. intros s H. exact H. Qed.

Lemma preserves_get : preserves I get.
Proof. intros s H. exact H. Qed.

Lemma preserves_emit (e : Event) : preserves I (emit e).
Proof. intros s H. exact H. Qed.

Lemma preserves_call (w : World) (c : Command) : preserves I (call w c).
Proof. intros s H. exact H. Qed.

Lemma preserves_load_global (G : gmap string GlobalValue) (x : string) :
  preserves I (load_global G x).
Proof. unfold load_global. destruct (G !! x); intros s H; exact H. Qed.

Lemma preserves_modify (f : Observatory -> Observatory) :
  (forall s, I s -> I (f s)) -> preserves I (modify f).
Proof. intros Hf s H. apply Hf, H. Qed.

Lemma preserves_bind {A B} (m : M A) (k : A -> M B) :
  preserves I m -> (forall a, preserves I (k a)) -> preserves I (bind m k).
Proof.
  intros Hm Hk s H. specialize (Hm s H). unfold bind, final in *.
  destruct (m s) as [[[a|e] s1] ev1]; cbn in *; [|exact Hm].
  specialize (Hk a s1 Hm). unfold final in Hk.
  destruct (k a s1) as [[r s2] ev2]. exact Hk.
Qed.

Lemma preserves_try (body handler : M unit) :
  preserves I body -> preserves I handler -> preserves I (try_except body handler).
Proof.
  intros Hb Hh s H. specialize (Hb s H). unfold try_except, final in *.
  destruct (body s) as [[[a|e] s1] ev1]; cbn in *; [exact Hb|].
  specialize (Hh s1 Hb). unfold final in Hh.
  destruct (handler s1) as [[r s2] ev2]. exact Hh.
Qed.

Lemma preserves_when (c : bool) (body : M unit) :
  preserves I body -> preserves I (when c body).
Proof. intros Hb. destruct c; [exact Hb|apply preserves_ret]. Qed.

End Preserves.

(** [self.is_dark()] leaves [current_state] alone. *)
Lemma preserves_state_call_is_dark (P : string -> Prop) (w : World) :
  preserves (fun s => P (current_state s)) (call_is_dark w).
Proof. intros s H. destruct s as [? ? []]; exact H. Qed.

(** Once the answer has replaced the method, [self.is_dark()] changes
    nothing. *)
Lemma preserves_spent_call_is_dark (b : bool) (w : World) :
  preserves (fun s => is_dark_attr s = DarkValue b) (call_is_dark w).
Proof. intros s H. destruct s as [? ? []]; try discriminate H. exact H. Qed.

(** Take a method apart down to its primitive steps; [side] settles what an
    assignment does to the property. *)
Ltac preserve_with special side :=
  repeat first
    [ special
    | apply preserves_state_call_is_dark
    | apply preserves_spent_call_is_dark
    | apply preserves_bind; [|intros ?]
    | apply preserves_try
    | apply preserves_when
    | apply preserves_ret
    | apply preserves_raise
    | apply preserves_get
    | apply preserves_emit
    | apply preserves_call
    | apply preserves_load_global
    | apply preserves_modify; intros ? ?; solve [side]
    | match goal with
      | |- preserves _ (if ?c then _ else _) => destruct c
      | |- preserves _ (match ?x with _ => _ end) => destruct x
      end ].

Ltac preserve side := preserve_with fail side.

Ltac open_handlers :=
  unfold while_shutdown, while_sleeping, while_getting_ready, while_scheduling,
    while_slewing, while_taking_test_image, while_analyzing, while_imaging,
    while_parking, while_parked, return_current_state, guarded,
    escalate, park_or_get_ready, set_current_state, debug_info, sleep, log,
    global_scheduler_get_target, slew_to_global_target,
    global_target_test_image_taken.

Section RaisesOnly.

Context (E : Exn -> bool).

Lemma raises_only_ret {A} (a : A) : raises_only E (ret a).
Proof. intros s e H. discriminate H. Qed.

Lemma raises_only_raise {A} (e : Exn) : E e = true -> raises_only E (@raise A e).
Proof. intros He s e' [= <-]. exact He. Qed.

Lemma raises_only_get : raises_only E get.
Proof. intros s e H. discriminate H. Qed.

Lemma raises_only_modify (f : Observatory -> Observatory) : raises_only E (modify f).
Proof. intros s e H. discriminate H. Qed.

Lemma raises_only_emit (ev : Event) : raises_only E (emit ev).
Proof. intros s e H. discriminate H. Qed.

Lemma raises_only_call (w : World) (c : Command) :
  E (CommandFailure c) = true -> raises_only E (call w c).
Proof.
  intros Hc s e. unfold call, outcome. cbn.
  destruct (fails w c); [intros [= <-]; exact Hc|discriminate].
Qed.

Lemma raises_only_load_global (G : gmap string GlobalValue) (x : string) :
  E (NameError x) = true -> raises_only E (load_global G x).
Proof.
  intros Hx. unfold load_global.
  destruct (G !! x); [apply raises_only_ret|apply raises_only_raise, Hx].
Qed.

Lemma raises_only_call_is_dark (w : World) :
  E (TypeError "'bool' object is not callable") = true ->
  raises_only E (call_is_dark w).
Proof.
  intros Ht s e. destruct s as [? ? []]; cbn; try discriminate.
  intros [= <-]. exact Ht.
Qed.

Lemma raises_only_bind {A B} (m : M A) (k : A -> M B) :
  raises_only E m -> (forall a, raises_only E (k a)) -> raises_only E (bind m k).
Proof.
  intros Hm Hk s e. specialize (Hm s). unfold bind, outcome in *.
  destruct (m s) as [[[a|e1] s1] ev1]; cbn in *;
    [|intros [= <-]; apply Hm; reflexivity].
  specialize (Hk a s1 e). unfold outcome in Hk.
  destruct (k a s1) as [[r s2] ev2]. exact Hk.
Qed.

(** What the body of a [try] raises is of no account: the bare [except]
    takes it. *)
Lemma raises_only_try (body handler : M unit) :
  raises_only E handler -> raises_only E (try_except body handler).
Proof.
  intros Hh s e. unfold try_except, outcome.
  destruct (body s) as [[[a|e1] s1] ev1]; cbn; [discriminate|].
  specialize (Hh s1 e). unfold outcome in Hh.
  destruct (handler s1) as [[r s2] ev2]. exact Hh.
Qed.

Lemma raises_only_when (c : bool) (body : M unit) :
  raises_only E body -> raises_only E (when c body).
Proof. intros Hb. destruct c; [exact Hb|apply raises_only_ret]. Qed.

End RaisesOnly.

Ltac raise_only :=
  repeat first
    [ apply raises_only_call_is_dark; reflexivity
    | apply raises_only_bind; [|intros ?]
    | apply raises_only_try
    | apply raises_only_when
    | apply raises_only_ret
    | apply raises_only_get
    | apply raises_only_modify
    | apply raises_only_emit
    | apply raises_only_raise; reflexivity
    | apply raises_only_call; reflexivity
    | apply raises_only_load_global; reflexivity
    | match goal with
      | |- raises_only _ (if ?c then _ else _) => destruct c
      | |- raises_only _ (match ?x with _ => _ end) => destruct x
      end ].

Section EmitsOnly.

Context (P : Event -> bool).

Lemma emits_only_ret {A} (a : A) : emits_only P (ret a).
Proof. intros s. reflexivity. Qed.

Lemma emits_only_raise {A} (e : Exn) : emits_only P (@raise A e).
Proof. intros s. reflexivity. Qed.

Lemma emits_only_get : emits_only P get.
Proof. intros s. reflexivity. Qed.

Lemma emits_only_modify (f : Observatory -> Observatory) : emits_only P (modify f).
Proof. intros s. reflexivity. Qed.

Lemma emits_only_emit (e : Event) : P e = true -> emits_only P (emit e).
Proof. intros He s. cbn. rewrite He. reflexivity. Qed.

Lemma emits_only_call (w : World) (c : Command) :
  P (Call c) = true -> emits_only P (call w c).
Proof. intros He s. cbn. rewrite He. reflexivity. Qed.

Lemma emits_only_load_global (G : gmap string GlobalValue) (x : string) :
  emits_only P (load_global G x).
Proof.
  unfold load_global. destruct (G !! x); [apply emits_only_ret|apply emits_only_raise].
Qed.

Lemma emits_only_call_is_dark (w : World) :
  P (Log DEBUG "Calculating is_dark.") = true ->
  P ClockRead = true -> P SunCompute = true ->
  emits_only P (call_is_dark w).
Proof.
  intros H1 H2 H3 s. destruct s as [? ? []]; cbn; rewrite ?H1, ?H2, ?H3; reflexivity.
Qed.

Lemma emits_only_bind {A B} (m : M A) (k : A -> M B) :
  emits_only P m -> (forall a, emits_only P (k a)) -> emits_only P (bind m k).
Proof.
  intros Hm Hk s. specialize (Hm s). unfold bind, events in *.
  destruct (m s) as [[[a|e] s1] ev1]; cbn in *; [|exact Hm].
  specialize (Hk a s1). unfold events in Hk.
  destruct (k a s1) as [[r s2] ev2]; cbn in *.
  rewrite forallb_app, Hm, Hk. reflexivity.
Qed.

Lemma emits_only_try (body handler : M unit) :
  emits_only P body -> emits_only P handler -> emits_only P (try_except body handler).
Proof.
  intros Hb Hh s. specialize (Hb s). unfold try_except, events in *.
  destruct (body s) as [[[a|e] s1] ev1]; cbn in *; [exact Hb|].
  specialize (Hh s1). unfold events in Hh.
  destruct (handler s1) as [[r s2] ev2]; cbn in *.
  rewrite forallb_app, Hb, Hh. reflexivity.
Qed.

Lemma emits_only_when (c : bool) (body : M unit) :
  emits_only P body -> emits_only P (when c body).
Proof. intros Hb. destruct c; [exact Hb|apply emits_only_ret]. Qed.

End EmitsOnly.

Ltac emit_only :=
  repeat first
    [ apply emits_only_call_is_dark; reflexivity
    | apply emits_only_bind; [|intros ?]
    | apply emits_only_try
    | apply emits_only_when
    | apply emits_only_ret
    | apply emits_only_raise
    | apply emits_only_get
    | apply emits_only_modify
    | apply emits_only_load_global
    | apply emits_only_emit; reflexivity
    | apply emits_only_call; reflexivity
    | match goal with
      | |- emits_only _ (if ?c then _ else _) => destruct c
      | |- emits_only _ (match ?x with _ => _ end) => destruct x
      end ].

Lemma returns_its_state_bind {A} (m : M A) (k : A -> M string) :
  (forall a, returns_its_state (k a)) -> returns_its_state (bind m k).
Proof.
  intros Hk s st. unfold bind, outcome, final.
  destruct (m s) as [[[a|e] s1] ev1]; cbn; [|discriminate].
  specialize (Hk a s1 st). unfold outcome, final in Hk.
  destruct (k a s1) as [[r s2] ev2]. exact Hk.
Qed.

Lemma returns_its_state_return : returns_its_state return_current_state.
Proof. intros s st [= <-]. reflexivity. Qed.

Lemma handler_returns_its_state (G : gmap string GlobalValue) (w : World)
    (h : Handler) :
  returns_its_state (run_handler G w h).
Proof.
  destruct h; cbn [run_handler];
    unfold while_shutdown, while_sleeping, while_getting_ready, while_scheduling,
      while_slewing, while_taking_test_image, while_analyzing, while_imaging,
      while_parking, while_parked;
    repeat first
      [ apply returns_its_state_return
      | apply returns_its_state_bind; intros ? ].
Qed.

(** A handler starts by assigning its state: what holds of that assignment
    and is preserved by the rest holds at the end. *)
Lemma after_enter {B} (I : Observatory -> Prop) (st : string)
    (k : unit -> M B) (s : Observatory) :
  I (with_current_state st s) ->
  preserves I (k tt) ->
  I (final (bind (enter st) k s)).
Proof.
  intros Hst Hk. rewrite run_enter, final_continue. apply Hk, Hst.
Qed.

Lemma handler_leaves_registered_state (G : gmap string GlobalValue) (w : World)
    (h : Handler) (s : Observatory) :
  registered (current_state (final (run_handler G w h s))) = true.
Proof.
  destruct h; cbn [run_handler];
    unfold while_shutdown, while_sleeping, while_getting_ready, while_scheduling,
      while_slewing, while_taking_test_image, while_analyzing, while_imaging,
      while_parking, while_parked;
    apply (after_enter (fun s => registered (current_state s) = true));
    try (vm_compute; reflexivity);
    open_handlers;
    preserve ltac:(first [assumption | vm_compute; reflexivity]).
Qed.

(** ** What a handler returns *)

(** X1.  Whatever the namespace, the world and the instance, a handler that
    returns returns the value of [self.current_state] as it leaves it, and
    that value is a key of the mapper of [__init__], registered for the
    handler that assigns this name on entry. *)
Theorem handler_result_is_registered (G : gmap string GlobalValue) (w : World)
    (h : Handler) (s : Observatory) (st : string) :
  outcome (run_handler G w h s) = Ret st ->
  current_state (final (run_handler G w h s)) = st
  /\ exists h', state_methods !! st = Some h' /\ state_name h' = st.
Proof.
  intros Hret.
  pose proof (handler_returns_its_state G w h s st Hret) as Hst.
  split; [exact Hst|].
  pose proof (handler_leaves_registered_state G w h s) as Hreg.
  rewrite Hst in Hreg. unfold registered in Hreg.
  destruct (state_methods !! st) as [h'|]; [|discriminate Hreg].
  exists h'. split; [reflexivity|]. apply String.eqb_eq, Hreg.
Qed.

Lemma handler_result_is_registered_witness :
  let r := run_handler module_globals (world_with [] true (30 # 1)) WhileShutdown
             (instance camera_off mount_off true None) in
  current_state (final r) = "sleeping"
  /\ exists h', state_methods !! "sleeping" = Some h' /\ state_name h' = "sleeping".
Proof.
  exact (handler_result_is_registered module_globals (world_with [] true (30 # 1))
           WhileShutdown (instance camera_off mount_off true None) "sleeping"
           eq_refl).
Defined.

(** ** The operations loop *)

Lemma cycle_leaves_registered_state (G : gmap string GlobalValue) (w : World)
    (s s1 : Observatory) (ev : list Event) :
  cycle G w s = (Ret tt, s1, ev) -> registered (current_state s1) = true.
Proof.
  unfold cycle, bind.
  destruct (query_conditions G w s) as [[[[]|e] sq] evq]; [|discriminate].
  unfold dispatch, bind, load_global.
  destruct (G !! "states") as [[]|]; cbn; try discriminate.
  destruct (states sq !! current_state sq) as [h|]; cbn; [|discriminate].
  pose proof (handler_returns_its_state G w h sq) as Hst.
  pose proof (handler_leaves_registered_state G w h sq) as Hreg.
  unfold returns_its_state, outcome, final in Hst, Hreg.
  destruct (run_handler G w h sq) as [[[st|e] sh] evh]; cbn in *; [|discriminate].
  intros [= <- _]. cbn. rewrite <- (Hst st eq_refl). exact Hreg.
Qed.

Lemma stop_signal_is_not_registered (st : string) :
  registered st = true -> String.eqb st "stop_observing" = false.
Proof.
  intros Hreg. destruct (String.eqb st "stop_observing") eqn:E; [|reflexivity].
  apply String.eqb_eq in E. subst. vm_compute in Hreg. discriminate Hreg.
Qed.

Lemma running_loop_ends_by_exception (G : gmap string GlobalValue) (w : World)
    (fuel : nat) (s : Observatory) r :
  String.eqb (current_state s) "stop_observing" = false ->
  start_observing G w fuel s = Some r ->
  exists e, outcome r = Raise e.
Proof.
  revert s r. induction fuel as [|fuel IH]; intros s r Hrun; cbn [start_observing].
  - discriminate.
  - rewrite Hrun.
    destruct (cycle G w s) as [[[[]|e] s1] ev1] eqn:Hc.
    + apply cycle_leaves_registered_state, stop_signal_is_not_registered in Hc.
      destruct (start_observing G w fuel s1) as [[[r2 s2] ev2]|] eqn:E; [|discriminate].
      intros [= <-]. destruct (IH s1 _ Hc E) as [e He]. exists e. exact He.
    + intros [= <-]. exists e. reflexivity.
Qed.

(** X2.  [start_observing] returns normally only when the state was already
    [stop_observing] when it was called, and then it has done nothing: no
    handler ever returns the stop signal, so a loop that has started can end
    only by an exception. *)
Theorem start_observing_returns_only_if_stopped (G : gmap string GlobalValue)
    (w : World) (fuel : nat) (s : Observatory) r :
  start_observing G w fuel s = Some r ->
  outcome r = Ret tt ->
  current_state s = "stop_observing" /\ final r = s /\ events r = [].
Proof.
  intros Hr Hret.
  destruct (String.eqb (current_state s) "stop_observing") eqn:E.
  - destruct fuel as [|fuel]; [discriminate Hr|].
    cbn [start_observing] in Hr. rewrite E in Hr. injection Hr as <-.
    apply String.eqb_eq in E. repeat split; [exact E].
  - destruct (running_loop_ends_by_exception G w fuel s r E Hr) as [e He].
    rewrite He in Hret. discriminate Hret.
Qed.

Lemma start_observing_returns_only_if_stopped_witness :
  let s := with_current_state "stop_observing"
             (instance camera_off mount_off true None) in
  current_state s = "stop_observing"
  /\ final (Ret tt, s, @nil Event) = s
  /\ events (Ret tt, s, @nil Event) = [].
Proof.
  exact (start_observing_returns_only_if_stopped module_globals (calm (30 # 1)) 1
           (with_current_state "stop_observing"
              (instance camera_off mount_off true None))
           _ eq_refl eq_refl).
Defined.

(** ** Exceptions that leave a handler *)

Lemma handler_raises_only (G : gmap string GlobalValue) (w : World) (h : Handler) :
  raises_only may_leave_handler (run_handler G w h).
Proof.
  destruct h; cbn [run_handler]; open_handlers; unfold enter, set_current_state,
    debug_info; raise_only.
Qed.

(** X3.  The exceptions that can leave a state handler are the [TypeError]
    of a replaced [is_dark], the [NameError] or [AttributeError] of reading
    [target] in [while_slewing], and the failure of a call that is made
    outside every [try]: a disconnect, [park] or [take_image].  A failing
    connect, set_cooling, cancel_exposure, set_tracking_rate, cancel_slew,
    slew_to or get_target never leaves a handler, and no handler raises
    [KeyError]. *)
Theorem guarded_failures_stay_inside (G : gmap string GlobalValue) (w : World)
    (h : Handler) (s : Observatory) (e : Exn) :
  outcome (run_handler G w h s) = Raise e ->
  may_leave_handler e = true
  /\ forall c, e = CommandFailure c ->
       c = MountDisconnect \/ c = CameraDisconnect \/ c = MountPark
       \/ exists test_image, c = CameraTakeImage test_image.
Proof.
  intros Hraise. pose proof (handler_raises_only G w h s e Hraise) as He.
  split; [exact He|].
  intros c ->. cbn in He. destruct c; try discriminate He; eauto.
Qed.

Lemma guarded_failures_stay_inside_witness :
  let e := CommandFailure MountDisconnect in
  may_leave_handler e = true
  /\ forall c, e = CommandFailure c ->
       c = MountDisconnect \/ c = CameraDisconnect \/ c = MountPark
       \/ exists test_image, c = CameraTakeImage test_image.
Proof.
  exact (guarded_failures_stay_inside module_globals
           (world_with [MountDisconnect] false (30 # 1)) WhileShutdown
           (instance camera_off mount_parked true None)
           (CommandFailure MountDisconnect) eq_refl).
Defined.

(** ** Handlers decide on the snapshot *)

(** X4.  No handler polls a collaborator for its status or touches the
    heartbeat file: every call a handler makes is a command. *)
Theorem handlers_never_poll (G : gmap string GlobalValue) (w : World)
    (h : Handler) (s : Observatory) :
  forallb decides_on_snapshot (events (run_handler G w h s)) = true
  /\ forall c, c ∈ commands (events (run_handler G w h s)) -> is_poll c = false.
Proof.
  assert (Hall : emits_only decides_on_snapshot (run_handler G w h)).
  { destruct h; cbn [run_handler]; open_handlers;
      unfold enter, set_current_state, debug_info; emit_only. }
  split; [apply Hall|].
  specialize (Hall s). revert Hall.
  induction (events (run_handler G w h s)) as [|ev rest IH]; cbn [forallb commands].
  - intros _ c Hc. apply elem_of_nil in Hc. destruct Hc.
  - intros Hev c Hc. apply andb_prop in Hev as [Hhead Hrest].
    destruct ev; try (apply IH; assumption).
    apply elem_of_cons in Hc as [->|Hc]; [|apply IH; assumption].
    cbn in Hhead. apply negb_true_iff, Hhead.
Qed.

(** ** One answer per instance *)

Lemma preserves_final {A} (I : Observatory -> Prop) (m : M A) (s : Observatory) :
  preserves I m -> I s -> I (final (m s)).
Proof. intros Hm Hs. apply Hm, Hs. Qed.

(** The answer takes the place of the method in every handler that asks. *)
Lemma is_dark_spent_after_handler (G : gmap string GlobalValue) (w : World)
    (h : Handler) (s : Observatory) :
  asks_is_dark h = true ->
  is_dark_attr s = DarkMethod ->
  is_dark_attr (final (run_handler G w h s)) = DarkValue (darkness w s).
Proof.
  intros Hasks Hm.
  destruct h; try discriminate Hasks; cbn [run_handler];
    unfold while_sleeping, while_getting_ready, while_scheduling;
    rewrite run_enter, final_continue;
    rewrite run_is_dark_method by exact Hm;
    rewrite final_continue, darkness_entered;
    (match goal with
     | |- is_dark_attr (final (?m ?s')) = ?v =>
         apply (preserves_final (fun x => is_dark_attr x = v) m s')
     end; [|reflexivity]);
    open_handlers;
    preserve ltac:(first [assumption | reflexivity]).
Qed.

(** X5.  A handler that asks [self.is_dark()] on an instance that still has
    the method leaves the instance with the answer in place of the method,
    whatever else it does and however it ends: [self.is_dark] can no longer be
    called. *)
Theorem handler_spends_is_dark (G : gmap string GlobalValue) (w : World)
    (h : Handler) (s : Observatory) :
  asks_is_dark h = true ->
  is_dark_attr s = DarkMethod ->
  is_dark_attr (final (run_handler G w h s)) = DarkValue (darkness w s)
  /\ callable (is_dark_attr (final (run_handler G w h s))) = false.
Proof.
  intros Hasks Hm.
  rewrite (is_dark_spent_after_handler G w h s Hasks Hm). split; reflexivity.
Qed.

Lemma handler_spends_is_dark_witness :
  let w := calm (30 # 1) in
  let s := instance camera_idle mount_parked true None in
  is_dark_attr (final (run_handler module_globals w WhileSleeping s))
  = DarkValue (darkness w s)
  /\ callable (is_dark_attr (final (run_handler module_globals w WhileSleeping s)))
     = false.
Proof.
  exact (handler_spends_is_dark module_globals (calm (30 # 1)) WhileSleeping
           (instance camera_idle mount_parked true None) eq_refl eq_refl).
Defined.

Lemma spent_is_dark_stops_handler (G : gmap string GlobalValue) (w : World)
    (h : Handler) (s : Observatory) (b : bool) :
  asks_is_dark h = true ->
  is_dark_attr s = DarkValue b ->
  run_handler G w h s
  = (Raise (TypeError "'bool' object is not callable"),
     with_current_state (state_name h) s,
     [DebugInfo ("Entering " ++ state_name h ++ " while_state function.")]).
Proof.
  intros Hasks Hb. destruct s. cbn in Hb. subst.
  destruct h; try discriminate Hasks; reflexivity.
Qed.

(** X6.  Of two invocations of the sleeping, getting ready or scheduling
    handlers on one instance, in any order and in any worlds, the second
    raises [TypeError] right after naming its state, before any call on a
    collaborator. *)
Theorem second_is_dark_handler_raises (G G' : gmap string GlobalValue)
    (w w' : World) (h h' : Handler) (s : Observatory) :
  asks_is_dark h = true ->
  asks_is_dark h' = true ->
  is_dark_attr s = DarkMethod ->
  let s1 := final (run_handler G w h s) in
  outcome (run_handler G' w' h' s1) = Raise (TypeError "'bool' object is not callable")
  /\ commands (events (run_handler G' w' h' s1)) = []
  /\ current_state (final (run_handler G' w' h' s1)) = state_name h'.
Proof.
  intros Hh Hh' Hm s1.
  pose proof (is_dark_spent_after_handler G w h s Hh Hm) as Hspent.
  fold s1 in Hspent.
  rewrite (spent_is_dark_stops_handler G' w' h' s1 _ Hh' Hspent).
  repeat split; reflexivity.
Qed.

Lemma second_is_dark_handler_raises_witness :
  let w := calm (-30 # 1) in
  let s := instance camera_cooling mount_parked true None in
  let s1 := final (run_handler module_globals w WhileGettingReady s) in
  outcome (run_handler module_globals w WhileGettingReady s1)
    = Raise (TypeError "'bool' object is not callable")
  /\ commands (events (run_handler module_globals w WhileGettingReady s1)) = []
  /\ current_state (final (run_handler module_globals w WhileGettingReady s1))
     = state_name WhileGettingReady.
Proof.
  exact (second_is_dark_handler_raises module_globals module_globals
           (calm (-30 # 1)) (calm (-30 # 1)) WhileGettingReady WhileGettingReady
           (instance camera_cooling mount_parked true None)
           eq_refl eq_refl eq_refl).
Defined.

(** ** Sleeping and scheduling with the method of the class *)

Section RaisesUnder.

Context (I : Observatory -> Prop).

Lemma raises_under_bind_left {A B} (m : M A) (k : A -> M B) :
  raises_under I m -> raises_under I (bind m k).
Proof.
  intros Hm s Hs. destruct (Hm s Hs) as [e He]. exists e.
  unfold bind, outcome in *. destruct (m s) as [[[a|e'] s1] ev1]; cbn in *.
  - discriminate He.
  - injection He as ->. reflexivity.
Qed.

Lemma raises_under_bind_right {A B} (m : M A) (k : A -> M B) :
  preserves I m -> (forall a, raises_under I (k a)) -> raises_under I (bind m k).
Proof.
  intros Hm Hk s Hs. specialize (Hm s Hs). unfold bind, outcome, final in *.
  destruct (m s) as [[[a|e] s1] ev1]; cbn in *.
  - destruct (Hk a s1 Hm) as [e He]. exists e. unfold outcome in He.
    destruct (k a s1) as [[r s2] ev2]. exact He.
  - exists e. reflexivity.
Qed.

End RaisesUnder.

Lemma raises_under_call_is_dark (b : bool) (w : World) :
  raises_under (fun s => is_dark_attr s = DarkValue b) (call_is_dark w).
Proof.
  intros s Hs. destruct s. cbn in Hs. subst. eexists. reflexivity.
Qed.

Lemma run_get {B} (k : Observatory -> M B) (s : Observatory) :
  bind get k s = k s s.
Proof. unfold bind, get. destruct (k s s) as [[r s2] ev2]. reflexivity. Qed.

(** X7.  On an instance whose [is_dark] is the method of the class or the
    answer it left behind, the sleeping and the scheduling handler can return
    nothing but their own state, with their condition holding and no call
    made: the other branch ends in a second [self.is_dark()], in every world
    and namespace. *)
Theorem own_is_dark_pins_the_state (G : gmap string GlobalValue) (w : World)
    (h : Handler) (s : Observatory) (st : string) :
  second_is_dark_in_else h = true ->
  (forall answer, is_dark_attr s <> DarkCallable answer) ->
  outcome (run_handler G w h s) = Ret st ->
  st = state_name h
  /\ settled h (time_to_start w) (darkness w s) s = true
  /\ commands (events (run_handler G w h s)) = [].
Proof.
  intros Hh Hown Hret.
  assert (Hasks : asks_is_dark h = true) by (destruct h; try discriminate Hh; reflexivity).
  destruct (is_dark_attr s) as [|b|b] eqn:Hattr.
  - destruct (settled h (time_to_start w) (darkness w s) s) eqn:Hsettled.
    + assert (Hans : is_dark_answer w s = Some (darkness w s))
        by (unfold is_dark_answer; rewrite Hattr; reflexivity).
      destruct (settled_is_idle G w s h _ Hans Hsettled) as [Hout Hcmd].
      rewrite Hout in Hret. injection Hret as <-. repeat split; assumption.
    + exfalso. revert Hret.
      destruct h; try discriminate Hh; cbn [run_handler];
        unfold while_sleeping, while_scheduling;
        rewrite run_enter, outcome_continue;
        rewrite run_is_dark_method by exact Hattr;
        rewrite outcome_continue, darkness_entered, run_get;
        match goal with
        | |- context [bind (if ?c then _ else _) _ _] =>
            change c with (settled WhileSleeping (time_to_start w) (darkness w s) s)
            || change c with (settled WhileScheduling (time_to_start w) (darkness w s) s)
        end;
        rewrite Hsettled;
        match goal with
        | |- outcome (?m ?s') = _ -> _ =>
            assert (Hraise : raises_under
                      (fun x => is_dark_attr x = DarkValue (darkness w s)) m)
        end;
        try (apply raises_under_bind_left;
             repeat first
               [ apply raises_under_bind_left; apply raises_under_call_is_dark
               | apply raises_under_bind_right;
                 [open_handlers; preserve ltac:(first [assumption | reflexivity])
                 |intros ?] ]);
        match goal with
        | |- outcome (_ ?s') = _ -> _ =>
            destruct (Hraise s' eq_refl) as [e He]; rewrite He; discriminate
        end.
  - rewrite (spent_is_dark_stops_handler G w h s b Hasks Hattr) in Hret.
    discriminate Hret.
  - exfalso. exact (Hown b eq_refl).
Qed.

Lemma own_is_dark_pins_the_state_witness :
  let w := calm (30 # 1) in
  let s := instance camera_idle mount_parked true None in
  "sleeping" = state_name WhileSleeping
  /\ settled WhileSleeping (time_to_start w) (darkness w s) s = true
  /\ commands (events (run_handler module_globals w WhileSleeping s)) = [].
Proof.
  refine (own_is_dark_pins_the_state module_globals (calm (30 # 1)) WhileSleeping
            (instance camera_idle mount_parked true None) "sleeping"
            eq_refl _ eq_refl).
  intros answer. discriminate.
Defined.

(** ** The transitions of the module as written *)

(** Getting ready asks the scheduler through the unbound name [scheduler]:
    the state goes to scheduling and comes straight back. *)
Lemma unbound_scheduler_detour (w : World) :
  preserves (fun s => may_follow WhileGettingReady (current_state s) = true)
    (log WARNING "Camera is not cooling.  Turning on cooling." >>
     set_current_state "scheduling" >>
     try_except (global_scheduler_get_target module_globals w)
       (set_current_state "getting ready" >>
        log WARNING
          "Scheduler failed to get a target.  Going back to getting ready state.")).
Proof.
  intros s _.
  unfold bind, try_except, global_scheduler_get_target, load_global.
  rewrite scheduler_is_unbound. reflexivity.
Qed.

(** Scheduling passes the unbound name [target] to the mount: the state goes
    to slewing and comes straight back to getting ready. *)
Lemma unbound_target_detour (w : World) (t : Target) :
  preserves (fun s => may_follow WhileScheduling (current_state s) = true)
    (log INFO ("Target selected: " ++ name t) >>
     set_current_state "slewing" >>
     log INFO "Slewing telescope." >>
     try_except (slew_to_global_target module_globals w)
       (log CRITICAL "Slew failed.  Going to getting ready." >>
        set_current_state "getting ready")).
Proof.
  intros s _.
  unfold bind, try_except, slew_to_global_target, load_global.
  rewrite target_is_unbound. reflexivity.
Qed.

(** Slewing reads the unbound name [target] before it assigns a state. *)
Lemma unbound_target_stops_slewing {B} (I : Observatory -> Prop)
    (k : bool -> M B) :
  preserves I (bind (global_target_test_image_taken module_globals) k).
Proof.
  intros s Hs.
  unfold bind, global_target_test_image_taken, load_global.
  rewrite target_is_unbound. exact Hs.
Qed.

Lemma module_handler_stays_in_successors (w : World) (h : Handler)
    (s : Observatory) :
  may_follow h (current_state (final (run_handler module_globals w h s))) = true.
Proof.
  destruct h; cbn [run_handler];
    unfold while_shutdown, while_sleeping, while_getting_ready, while_scheduling,
      while_slewing, while_taking_test_image, while_analyzing, while_imaging,
      while_parking, while_parked;
    (apply (after_enter (fun s => may_follow WhileShutdown (current_state s) = true))
     || apply (after_enter (fun s => may_follow WhileSleeping (current_state s) = true))
     || apply (after_enter (fun s => may_follow WhileGettingReady (current_state s) = true))
     || apply (after_enter (fun s => may_follow WhileScheduling (current_state s) = true))
     || apply (after_enter (fun s => may_follow WhileSlewing (current_state s) = true))
     || apply (after_enter (fun s => may_follow WhileTakingTestImage (current_state s) = true))
     || apply (after_enter (fun s => may_follow WhileAnalyzing (current_state s) = true))
     || apply (after_enter (fun s => may_follow WhileImaging (current_state s) = true))
     || apply (after_enter (fun s => may_follow WhileParking (current_state s) = true))
     || apply (after_enter (fun s => may_follow WhileParked (current_state s) = true)));
    try reflexivity;
    open_handlers;
    preserve_with
      ltac:(idtac; lazymatch goal with
            | |- preserves _
                   (bind (emit _)
                      (fun _ => bind (modify (with_current_state "scheduling")) _)) =>
                exact (unbound_scheduler_detour _)
            | |- preserves _
                   (bind (emit _)
                      (fun _ => bind (modify (with_current_state "slewing")) _)) =>
                exact (unbound_target_detour _ _)
            | |- preserves _ (bind (bind (load_global _ "target") _) _) =>
                exact (unbound_target_stops_slewing _ _)
            end)
      ltac:(first [assumption | reflexivity]).
Qed.

(** X8.  In the module as written a handler can return only its own state,
    or: sleeping from shutdown; getting ready from sleeping, scheduling and
    slewing; parking from the five handlers that act.  No handler returns
    scheduling, slewing, taking test image, analyzing, imaging or parked
    unless it is the handler of that very state, in any world and on any
    instance. *)
Theorem module_transitions (w : World) (h : Handler) (s : Observatory)
    (st : string) :
  outcome (run_handler module_globals w h s) = Ret st ->
  st ∈ successors h.
Proof.
  intros Hret.
  pose proof (module_handler_stays_in_successors w h s) as Hin.
  rewrite (handler_returns_its_state module_globals w h s st Hret) in Hin.
  unfold may_follow in Hin. apply existsb_exists in Hin as [st' [Hin Heq]].
  apply String.eqb_eq in Heq. subst st'. apply list_elem_of_In, Hin.
Qed.

Lemma module_transitions_witness :
  "sleeping" ∈ successors WhileShutdown.
Proof.
  exact (module_transitions (world_with [] true (30 # 1)) WhileShutdown
           (instance camera_off mount_off true None) "sleeping" eq_refl).
Defined.

(** ** Waking up *)

(** X9.  Once the start time has come and no call fails, the shutdown
    handler disconnects whatever is connected, mount first, then connects the
    camera and the mount, and returns sleeping. *)
Theorem shutdown_wakes_up (w : World) (s : Observatory) :
  time_to_start w = true ->
  broken w = [] ->
  outcome (while_shutdown w s) = Ret "sleeping"
  /\ commands (events (while_shutdown w s))
     = ((if mnt_connected (mount s) then [MountDisconnect] else [])
        ++ (if cam_connected (camera s) then [CameraDisconnect] else [])
        ++ [CameraConnect; MountConnect])%list.
Proof.
  intros Hstart Hok.
  destruct s as [cs sts attr [c1 c2 c3 c4] [m1 m2 m3 m4] safe tgt date alt reads hb].
  destruct w as [br io start en dn sa].
  cbn in Hstart, Hok. subst.
  destruct c1, m1; run.
Qed.

Lemma shutdown_wakes_up_witness :
  let w := world_with [] true (30 # 1) in
  let s := instance camera_off mount_parked true None in
  outcome (while_shutdown w s) = Ret "sleeping"
  /\ commands (events (while_shutdown w s))
     = [MountDisconnect; CameraConnect; MountConnect].
Proof.
  exact (shutdown_wakes_up (world_with [] true (30 # 1))
           (instance camera_off mount_parked true None) eq_refl eq_refl).
Defined.

(** ** A park that fails *)

(** X10.  Where the weather check of a handler is reached under bad weather
    and [mount.park()] is the one call that fails, the handler logs at
    critical level and returns getting ready: the observatory is sent back to
    work, unparked, under an unsafe sky. *)
Theorem failed_park_resumes_operation (G : gmap string GlobalValue) (w : World)
    (s : Observatory) (h : Handler) :
  weather_safe s = false ->
  broken w = [MountPark] ->
  reaches_weather_check h s = true ->
  outcome (run_handler G w h s) = Ret "getting ready"
  /\ count_calls MountPark (events (run_handler G w h s)) = 1%nat
  /\ count_critical (events (run_handler G w h s)) = 1%nat.
Proof.
  intros Hsafe Hbroken Hreach.
  destruct s as [cs sts attr [c1 c2 c3 c4] [m1 m2 m3 m4] safe tgt date alt reads hb].
  destruct w as [br io start en dn sa].
  cbn in Hsafe, Hbroken. subst.
  destruct h; try discriminate Hreach; cbn [run_handler].
  - destruct attr as [|b|b]; try discriminate Hreach; clear Hreach.
    + unfold while_getting_ready. peel_dark. intros dark.
      destruct dark, c1, c2, c3, c4, m1, m2, m3, tgt; run.
    + destruct b, c1, c2, c3, c4, m1, m2, m3, tgt; run.
  - destruct attr as [|b|[|]]; try discriminate Hreach; clear Hreach.
    destruct c1, c2, c3, c4, m1, m3, tgt; run.
  - cbn in Hreach. destruct m1, m3; try discriminate Hreach; run.
Qed.

Lemma failed_park_resumes_operation_witness :
  let w := world_with [MountPark] false (-30 # 1) in
  let s := instance camera_cooled mount_pointing false None in
  let r := run_handler module_globals w WhileSlewing s in
  outcome r = Ret "getting ready"
  /\ count_calls MountPark (events r) = 1%nat
  /\ count_critical (events r) = 1%nat.
Proof.
  exact (failed_park_resumes_operation module_globals
           (world_with [MountPark] false (-30 # 1))
           (instance camera_cooled mount_pointing false None) WhileSlewing
           eq_refl eq_refl eq_refl).
Defined.

(** ** The heartbeat under failing file operations *)

(** X11.  [heartbeat] catches nothing: it returns exactly when the file can
    be opened, written and closed; otherwise the exception of the failing
    operation leaves it -- that of the close if both the write and the close
    fail. *)
Theorem heartbeat_lets_failures_out (w : World) (s : Observatory) :
  outcome (heartbeat w s)
  = if io_fails w OpenForWriting then Raise (IOError OpenForWriting)
    else if io_fails w Close then Raise (IOError Close)
    else if io_fails w WriteLine then Raise (IOError WriteLine)
    else Ret tt.
Proof.
  unfold heartbeat, closing, bind, open_heartbeat_file, write_line,
    close_heartbeat_file, read_datetime_now, log, emit, outcome.
  destruct (io_fails w OpenForWriting); [reflexivity|].
  destruct (io_fails w WriteLine), (io_fails w Close); reflexivity.
Qed.

(** X12.  Once the file has been opened the previous heartbeat is gone:
    where the close does not fail, the file afterwards holds the new timestamp
    if the write succeeded and nothing if it raised; nothing stays buffered
    and the handle is closed either way.  If the file cannot be opened it is
    left as it was. *)
Theorem heartbeat_file_after (w : World) (s : Observatory) :
  io_fails w Close = false ->
  heartbeat_file (final (heartbeat w s))
  = if io_fails w OpenForWriting then heartbeat_file s
    else mkMarkerFile
           (if io_fails w WriteLine then [] else [datetime_now w (clock_reads s)])
           [] false.
Proof.
  intros Hclose.
  unfold heartbeat, closing, bind, open_heartbeat_file, write_line,
    close_heartbeat_file, read_datetime_now, log, emit, final.
  rewrite Hclose.
  destruct (io_fails w OpenForWriting); [reflexivity|].
  destruct (io_fails w WriteLine); reflexivity.
Qed.

(** A write that fails, over an older heartbeat. *)
Lemma heartbeat_file_after_witness :
  let w := mkWorld [] [WriteLine] false (fun n => Z.of_nat n) (fun n => Z.of_nat n)
             (fun _ => 30 # 1) in
  let s := with_heartbeat_file (mkMarkerFile [41%Z] [] false)
             (instance camera_idle mount_parked true None) in
  heartbeat_file (final (heartbeat w s)) = mkMarkerFile [] [] false.
Proof.
  exact (heartbeat_file_after
           (mkWorld [] [WriteLine] false (fun n => Z.of_nat n) (fun n => Z.of_nat n)
              (fun _ => 30 # 1))
           (with_heartbeat_file (mkMarkerFile [41%Z] [] false)
              (instance camera_idle mount_parked true None))
           eq_refl).
Defined.

(** ** Building the instance *)

Lemma port_is_unbound : module_globals !! "port" = None.
Proof. vm_compute. reflexivity. Qed.

(** X14.  In the module as written [create_mount] never returns a mount,
    whatever the configuration, the drivers installed and the [mount_info]
    passed: where the brand can be imported and has a [Mount] class, the call
    [module.Mount(port)] reads the unbound name [port] and raises
    [NameError].  The driver class is never called: what it would do makes no
    difference to the result. *)
Theorem create_mount_never_returns (config : Config) (drivers : Drivers)
    (mount_info : option (gmap string string)) :
  (forall m, (create_mount module_globals config drivers mount_info).1 <> Done m)
  /\ (forall brand,
        mount_info ≫= (fun info => info !! "class") = Some brand ->
        import_mount drivers brand = Imported true ->
        (create_mount module_globals config drivers mount_info).1
        = Failed (Python (NameError "port")))
  /\ (forall new_mount',
        create_mount module_globals config
          (mkDrivers (import_mount drivers) (import_camera drivers) new_mount'
             (new_camera drivers)) mount_info
        = create_mount module_globals config drivers mount_info).
Proof.
  unfold create_mount. rewrite port_is_unbound. split; [|split].
  - intros m.
    destruct (match mount_info with Some i => Some i | None => config !! "mount" end)
      as [info|]; [|discriminate].
    destruct (info !! "class") as [brand|]; [|discriminate].
    destruct (import_mount drivers brand) as [|e|[|]]; discriminate.
  - intros brand Hbrand Himp.
    destruct mount_info as [info|]; [|discriminate Hbrand].
    cbn in Hbrand. rewrite Hbrand, Himp. reflexivity.
  - intros new_mount'. cbn. reflexivity.
Qed.

(** Where a caller has bound [port], the brand can be imported and the class
    returns, [create_mount] returns the driver. *)
Lemma create_mount_with_port_bound (G : gmap string GlobalValue)
    (config : Config) (drivers : Drivers) (info : gmap string string)
    (brand : string) (v : GlobalValue) :
  G !! "port" = Some v ->
  info !! "class" = Some brand ->
  import_mount drivers brand = Imported true ->
  new_mount drivers brand = None ->
  create_mount G config drivers (Some info)
  = (Done (mkDriver brand), [Log INFO ("Creating mount: " ++ brand)]).
Proof.
  intros Hport Hclass Himp Hnew. unfold create_mount.
  rewrite Hclass, Himp, Hport, Hnew. reflexivity.
Qed.

(** X15.  In the module as written [Observatory()] never yields an instance:
    [__init__] ends with the exception of [create_mount] after at most two
    log lines, and none of the statements after
    [self.mount = self.create_mount()] is reached. *)
Theorem init_never_completes {A} (config : Config) (drivers : Drivers)
    (and_then : Driver -> Built A * list Event) :
  (init module_globals config drivers and_then).1
    = Failed (create_mount_failure config drivers)
  /\ (init module_globals config drivers and_then).2
     = (Log INFO "Initializing panoptes observatory"
        :: match config !! "mount" ≫= (fun info => info !! "class") with
           | Some brand => [Log INFO ("Creating mount: " ++ brand)]
           | None => []
           end).
Proof.
  unfold init, create_mount, create_mount_failure. rewrite port_is_unbound.
  destruct (config !! "mount") as [info|]; cbn; [|split; reflexivity].
  destruct (info !! "class") as [brand|]; cbn; [|split; reflexivity].
  destruct (import_mount drivers brand) as [|e|[|]]; split; reflexivity.
Qed.

(** X16.  [create_camera] lets no [ImportError] out: whether the import or
    the call of the [Camera] class raises it, the caller sees
    [NotFound(brand)]; and it returns a camera exactly when the brand can be
    imported, has a [Camera] class and the call of the class returns. *)
Theorem create_camera_reports_not_found (drivers : Drivers) (brand : string) :
  (forall m, (create_camera drivers brand).1 <> Failed (ImportError m))
  /\ ((import_camera drivers brand = NoSuchModule
       \/ (import_camera drivers brand = Imported true
           /\ exists m, new_camera drivers brand = Some (ImportError m))) ->
      (create_camera drivers brand).1 = Failed (NotFound brand))
  /\ ((exists c, (create_camera drivers brand).1 = Done c)
      <-> (import_camera drivers brand = Imported true
           /\ new_camera drivers brand = None)).
Proof.
  unfold create_camera. split; [|split].
  - intros m.
    destruct (import_camera drivers brand) as [|e|[|]]; cbn; try discriminate.
    destruct (new_camera drivers brand) as [[e|m'|msg]|]; cbn; discriminate.
  - intros [->|[-> [m ->]]]; reflexivity.
  - split.
    + intros [c Hc].
      destruct (import_camera drivers brand) as [|e|[|]]; cbn in Hc;
        try discriminate Hc.
      destruct (new_camera drivers brand) as [[e|m'|msg]|]; cbn in Hc;
        try discriminate Hc.
      split; reflexivity.
    + intros [-> ->]. eexists. reflexivity.
Qed.

(** ** Polls in order *)

(** X17.  In every namespace and world [query_conditions] makes its polls in
    the one order, stops at the first that fails or cannot be reached, and
    calls nothing else: the calls it has made are a prefix of the nine polls,
    and all nine if it returns. *)
Theorem query_conditions_polls_in_order (G : gmap string GlobalValue)
    (w : World) (s : Observatory) :
  commands (events (query_conditions G w s)) `prefix_of` all_polls
  /\ (outcome (query_conditions G w s) = Ret tt ->
      commands (events (query_conditions G w s)) = all_polls).
Proof.
  unfold query_conditions, global_observatory, load_global, bind, call,
    outcome, events, all_polls.
  destruct (G !! "observatory") as [[]|]; cbv beta iota zeta delta [fst snd app commands];
    try (split; [apply prefix_nil|discriminate]).
  destruct (fails w WeatherCheckConditions); cbv beta iota zeta delta [fst snd app commands];
    [split; [eexists; reflexivity|discriminate]|].
  destruct (fails w CameraIsConnected); cbv beta iota zeta delta [fst snd app commands];
    [split; [eexists; reflexivity|discriminate]|].
  destruct (fails w CameraIsCooling); cbv beta iota zeta delta [fst snd app commands];
    [split; [eexists; reflexivity|discriminate]|].
  destruct (fails w CameraIsCooled); cbv beta iota zeta delta [fst snd app commands];
    [split; [eexists; reflexivity|discriminate]|].
  destruct (fails w CameraIsExposing); cbv beta iota zeta delta [fst snd app commands];
    [split; [eexists; reflexivity|discriminate]|].
  destruct (fails w MountIsConnected); cbv beta iota zeta delta [fst snd app commands];
    [split; [eexists; reflexivity|discriminate]|].
  destruct (fails w MountIsTracking); cbv beta iota zeta delta [fst snd app commands];
    [split; [eexists; reflexivity|discriminate]|].
  destruct (fails w MountIsSlewing); cbv beta iota zeta delta [fst snd app commands];
    [split; [eexists; reflexivity|discriminate]|].
  destruct (fails w MountIsParked); cbv beta iota zeta delta [fst snd app commands];
    split; first [eexists; reflexivity | discriminate | reflexivity].
Qed.

(** ** Settled handlers and the first answer *)

(** X18.  On an instance whose [is_dark] can be called, a handler whose
    condition holds returns its own state, leaves [current_state] at that
    state and calls no collaborator: all ten handlers, every namespace, every
    world. *)
Theorem settled_handler_is_idle (G : gmap string GlobalValue) (w : World)
    (s : Observatory) (h : Handler) (dark : bool) :
  is_dark_answer w s = Some dark ->
  settled h (time_to_start w) dark s = true ->
  outcome (run_handler G w h s) = Ret (state_name h)
  /\ current_state (final (run_handler G w h s)) = state_name h
  /\ commands (events (run_handler G w h s)) = [].
Proof.
  intros Hdark Hsettled.
  destruct (settled_is_idle G w s h dark Hdark Hsettled) as [Hout Hcmd].
  repeat split; try assumption.
  apply (handler_returns_its_state G w h s), Hout.
Qed.

(** Settled sleeping by day. *)
Lemma settled_handler_is_idle_witness :
  let w := calm (30 # 1) in
  let s := instance camera_idle mount_parked true None in
  outcome (run_handler module_globals w WhileSleeping s)
    = Ret (state_name WhileSleeping)
  /\ current_state (final (run_handler module_globals w WhileSleeping s))
     = state_name WhileSleeping
  /\ commands (events (run_handler module_globals w WhileSleeping s)) = [].
Proof.
  exact (settled_handler_is_idle module_globals (calm (30 # 1))
           (instance camera_idle mount_parked true None) WhileSleeping false
           eq_refl eq_refl).
Defined.

(** X19.  On an instance that still has the method, [self.is_dark(h)]
    returns; it answers true exactly when the sun's altitude, computed for
    the one clock reading it takes, is strictly below [h]; it leaves that
    reading as the date of the site, and it calls no collaborator. *)
Theorem is_dark_answers_for_the_present (w : World) (s : Observatory) (h : Q) :
  is_dark_attr s = DarkMethod ->
  let r := call_is_dark_with w h s in
  let now := ephem_now w (clock_reads s) in
  exists b : bool,
    outcome r = Ret b
    /\ (b = true <-> (solar_altitude w now < h)%Q)
    /\ site_date (final r) = now
    /\ sun_alt (final r) = Some (solar_altitude w now)
    /\ clock_reads (final r) = S (clock_reads s)
    /\ events r = [Log DEBUG "Calculating is_dark."; ClockRead; SunCompute].
Proof.
  intros Hm r now. subst r now. destruct s. cbn in Hm. subst.
  eexists. split; [reflexivity|]. split; [apply Qlt_bool_iff|].
  repeat split.
Qed.

(** The first call at -12.1 degrees. *)
Lemma is_dark_answers_for_the_present_witness :
  let w := calm (-121 # 10) in
  let s := instance camera_idle mount_parked true None in
  let r := call_is_dark_with w default_dark_horizon s in
  let now := ephem_now w (clock_reads s) in
  exists b : bool,
    outcome r = Ret b
    /\ (b = true <-> (solar_altitude w now < default_dark_horizon)%Q)
    /\ site_date (final r) = now
    /\ sun_alt (final r) = Some (solar_altitude w now)
    /\ clock_reads (final r) = S (clock_reads s)
    /\ events r = [Log DEBUG "Calculating is_dark."; ClockRead; SunCompute].
Proof.
  exact (is_dark_answers_for_the_present (calm (-121 # 10))
           (instance camera_idle mount_parked true None) default_dark_horizon
           eq_refl).
Defined.

(** ** Waiting *)

(** X20.  A handler sleeps only as its state prescribes: sixty seconds in
    shutdown and sleeping, ten in getting ready; the scheduling and slewing
    handlers and the five that only name their state never sleep. *)
Theorem handlers_sleep_as_prescribed (G : gmap string GlobalValue) (w : World)
    (h : Handler) (s : Observatory) (seconds : Z) :
  Sleep seconds ∈ events (run_handler G w h s) ->
  ((h = WhileShutdown \/ h = WhileSleeping) /\ seconds = 60%Z)
  \/ (h = WhileGettingReady /\ seconds = 10%Z).
Proof.
  assert (Hall : emits_only (sleeps_as h) (run_handler G w h)).
  { destruct h; cbn [run_handler]; open_handlers;
      unfold enter, set_current_state, debug_info; emit_only. }
  intros Hin. specialize (Hall s).
  rewrite forallb_forall in Hall.
  apply list_elem_of_In, Hall in Hin. cbn in Hin.
  destruct h; try discriminate Hin; apply Z.eqb_eq in Hin; subst; eauto.
Qed.

Lemma handlers_sleep_as_prescribed_witness :
  ((WhileSleeping = WhileShutdown \/ WhileSleeping = WhileSleeping) /\ 60%Z = 60%Z)
  \/ (WhileSleeping = WhileGettingReady /\ 60%Z = 10%Z).
Proof.
  refine (handlers_sleep_as_prescribed module_globals (calm (30 # 1)) WhileSleeping
            (instance camera_idle mount_parked true None) 60 _).
  vm_compute. repeat constructor.
Defined.

(** ** Dispatching *)

Lemma query_conditions_keeps_dispatchable (G : gmap string GlobalValue)
    (w : World) :
  preserves dispatchable (query_conditions G w).
Proof.
  unfold query_conditions, global_observatory.
  preserve ltac:(assumption).
Qed.

Lemma query_conditions_raises_no_key_error (G : gmap string GlobalValue)
    (w : World) :
  raises_only not_key_error (query_conditions G w).
Proof.
  unfold query_conditions, global_observatory.
  raise_only.
Qed.

Lemma handler_keeps_mapper (G : gmap string GlobalValue) (w : World)
    (h : Handler) (m : gmap string Handler) :
  preserves (fun s => states s = m) (run_handler G w h).
Proof.
  destruct h; cbn [run_handler]; open_handlers; unfold enter, set_current_state,
    debug_info;
    preserve ltac:(first [assumption | destruct s; assumption]).
Qed.

Lemma cycle_keeps_dispatchable (G : gmap string GlobalValue) (w : World)
    (s : Observatory) :
  dispatchable s ->
  match cycle G w s with
  | (Ret _, s1, _) => dispatchable s1
  | (Raise e, _, _) => not_key_error e = true
  end.
Proof.
  intros Hs. unfold cycle, bind.
  pose proof (query_conditions_keeps_dispatchable G w s Hs) as Hq.
  pose proof (query_conditions_raises_no_key_error G w s) as Hqe.
  unfold final, outcome in Hq, Hqe.
  destruct (query_conditions G w s) as [[[[]|e] sq] evq]; cbn in *;
    [|apply Hqe; reflexivity].
  unfold dispatch, bind, load_global.
  destruct (G !! "states") as [[]|]; cbn; try reflexivity.
  destruct Hq as [Hmap Hreg]. rewrite Hmap. unfold registered in Hreg.
  destruct (state_methods !! current_state sq) as [h|]; [|discriminate Hreg].
  pose proof (handler_returns_its_state G w h sq) as Hst.
  pose proof (handler_leaves_registered_state G w h sq) as Hreg'.
  pose proof (handler_keeps_mapper G w h state_methods sq Hmap) as Hmap'.
  pose proof (handler_raises_only G w h sq) as Hexn.
  unfold returns_its_state, outcome, final in Hst, Hreg', Hmap', Hexn.
  destruct (run_handler G w h sq) as [[[st|e] sh] evh]; cbn in *.
  - split; [exact Hmap'|]. rewrite <- (Hst st eq_refl). exact Hreg'.
  - specialize (Hexn e eq_refl). destruct e; try reflexivity. discriminate Hexn.
Qed.

(** X21.  On an instance that has the mapper of [__init__] and is in one of
    its states, the operations loop never raises [KeyError], in any namespace
    and world and however long it runs: every state a handler returns is a
    key of the mapper. *)
Theorem dispatch_never_misses (G : gmap string GlobalValue) (w : World)
    (fuel : nat) (s : Observatory) r (key : string) :
  states s = state_methods ->
  registered (current_state s) = true ->
  start_observing G w fuel s = Some r ->
  outcome r <> Raise (KeyError key).
Proof.
  intros Hmap Hreg. assert (Hs : dispatchable s) by (split; assumption).
  clear Hmap Hreg. revert s r Hs.
  induction fuel as [|fuel IH]; intros s r Hs; cbn [start_observing].
  - discriminate.
  - destruct (String.eqb (current_state s) "stop_observing").
    + intros [= <-]. discriminate.
    + pose proof (cycle_keeps_dispatchable G w s Hs) as Hc.
      destruct (cycle G w s) as [[[[]|e] s1] ev1].
      * destruct (start_observing G w fuel s1) as [[[r2 s2] ev2]|] eqn:E;
          [|discriminate].
        intros [= <-]. exact (IH s1 _ Hc E).
      * intros [= <-]. cbn. intros [= ->]. discriminate Hc.
Qed.

Lemma dispatch_never_misses_witness :
  let w := world_with [] true (30 # 1) in
  let s := instance camera_idle mount_parked true None in
  exists r,
    start_observing harness_globals w 3 s = Some r
    /\ commands (events r)
       = (all_polls ++ [MountDisconnect; CameraDisconnect; CameraConnect;
                        MountConnect] ++ all_polls ++ all_polls)%list
    /\ current_state (final r) = "sleeping"
    /\ outcome r = Raise (TypeError "'bool' object is not callable")
    /\ outcome r <> Raise (KeyError "sleeping").
Proof.
  intros w s. eexists.
  split; [vm_compute; reflexivity|].
  split; [vm_compute; reflexivity|].
  split; [vm_compute; reflexivity|].
  split; [vm_compute; reflexivity|].
  refine (dispatch_never_misses harness_globals w 3 s _ "sleeping"
            eq_refl eq_refl _).
  vm_compute; reflexivity.
Defined.
